(** * Validation results table renderer

    A shallow embedding of
    [great_expectations/render/renderer/content_block/validation_results_table_content_block.py]
    (class [ValidationResultsTableContentBlockRenderer]) and the properties
    of its column discovery, metadata normalization, row generation and
    table styling.

    Python values are embedded as the inductive [value]; dictionaries are
    finite maps with string keys; a raised exception is an explicit
    [Raise] result; the records sent to the module logger are returned next
    to the result of the function that emits them. *)

From Stdlib Require Import ZArith Ascii.
From stdpp Require Import gmap strings list fin_maps sorting.

Set Warnings "-register-all".

(** ** Python values *)

(** The JSON-like values found in expectation metadata, and [VContent] for
    the rendered-content objects (string templates, tables, ...) that the
    renderers of the registry return; such an object is opaque to this
    module, which only places it in a row. *)
Inductive value :=
| VNone
| VBool (b : bool)
| VInt (z : Z)
| VStr (s : string)
| VList (l : list value)
| VDict (d : gmap string value)
| VContent (name : string).

(** Truth value of a Python object, as tested by [if x:]. *)
Definition truthy (v : value) : bool :=
  match v with
  | VNone => false
  | VBool b => b
  | VInt z => negb (z =? 0)%Z
  | VStr s => negb (String.eqb s EmptyString)
  | VList l => negb (bool_decide (l = []))
  | VDict d => negb (bool_decide (d = ∅))
  | VContent _ => true
  end.

(** ** Exceptions and results *)

(** What a handler reads from an exception raised by a renderer:
    [type(e).__name__], [str(e)] and [traceback.format_exc()]. *)
Record Exception := mkException {
  exc_name : string;
  exc_str : string;
  exc_traceback : string
}.

(** What a call of a registered renderer does: it returns or it raises. *)
Inductive call (A : Type) :=
| Returns (a : A)
| Raises (e : Exception).
Arguments Returns {A} a.
Arguments Raises {A} e.

(** An exception leaving a function of this module: one raised by the
    interpreter in the module's own operations (a subscript on a missing
    key, a subscript or an item assignment on a value that does not support
    it, a missing attribute), or one that a renderer raised and no handler
    caught. *)
Inductive Raised :=
| KeyError (key : string)
| TypeError
| AttributeError
| Uncaught (e : Exception).

Inductive completion (A : Type) :=
| Ok (a : A)
| Raise (r : Raised).
Arguments Ok {A} a.
Arguments Raise {A} r.

Global Instance completion_ret : MRet completion := @Ok.
Global Instance completion_bind : MBind completion :=
  λ A B f c, match c with Ok a => f a | Raise r => Raise r end.

Definition of_call {A} (c : call A) : completion A :=
  match c with Returns a => Ok a | Raises e => Raise (Uncaught e) end.

(** [for x in xs: acc = body(acc, x)], stopping at the first exception. *)
Fixpoint for_each {A S} (body : S → A → completion S) (xs : list A) (acc : S)
  : completion S :=
  match xs with
  | [] => Ok acc
  | x :: rest => acc' ← body acc x; for_each body rest acc'
  end.

(** ** Builtins *)

(** [sorted(xs)] on strings: the ascending rearrangement of [xs] for the
    lexicographic order on characters. *)
Definition sorted (xs : list string) : list string := merge_sort String.le xs.

(** [for key in d] on a dictionary enumerates its keys; the source sorts
    every such enumeration, or the list that it feeds, before use. *)
Definition dict_keys (d : gmap string value) : list string := (map_to_list d).*1.

(** [obj[key]] with a string key. *)
Definition getitem (obj : value) (key : string) : completion value :=
  match obj with
  | VDict d => match d !! key with
               | Some v => Ok v
               | None => Raise (KeyError key)
               end
  | _ => Raise TypeError
  end.

(** [s.split(".")]: the segments between the separators, at least one. *)
Fixpoint split (sep : ascii) (s : string) : list string :=
  match s with
  | EmptyString => [EmptyString]
  | String c rest =>
      if Ascii.eqb c sep then EmptyString :: split sep rest
      else match split sep rest with
           | seg :: segs => String c seg :: segs
           | [] => [String c EmptyString]
           end
  end.

(** The value under the reserved key is a mapping from column names to
    dotted paths (or None).  The operations that the module applies to it
    (iteration, [in], item assignment, [sorted] and subscript) are embedded on
    mappings; on a value of another type the embedding raises [TypeError] at
    the first use, which is where Python raises for None, numbers and
    booleans.  Lists and strings are not covered: Python iterates and sorts
    them, and fails, if at all, at a later subscript or item assignment, with
    [TypeError] or [IndexError].  The properties below that reach this
    function on arbitrary values assume [properties_mapping]. *)
Definition as_mapping (v : value) : completion (gmap string value) :=
  match v with
  | VDict d => Ok d
  | _ => Raise TypeError
  end.

(** ** Validation results *)

Record ExpectationConfiguration := mkConfiguration {
  expectation_type : string;
  kwargs : value;
  meta : option (gmap string value)
}.

Record ExpectationValidationResult := mkValidationResult {
  success : bool;
  expectation_config : ExpectationConfiguration;
  result : value
}.

Definition set_meta (m : gmap string value) (r : ExpectationValidationResult)
  : ExpectationValidationResult :=
  let c := expectation_config r in
  mkValidationResult (success r)
    (mkConfiguration (expectation_type c) (kwargs c) (Some m)) (result r).

Definition _custom_property_columns_key : string := "properties_to_render".

(** ** Column discovery *)

(** The inner loop of [_get_custom_columns]:
    [for key in ...: if key not in custom_columns: custom_columns.append(key)]. *)
Definition append_new (custom_columns : list string) (keys : list string)
  : list string :=
  foldl (λ acc key, if bool_decide (key ∈ acc) then acc else acc ++ [key])
        custom_columns keys.

(** The keys that one validation result contributes. *)
Definition declared_columns (r : ExpectationValidationResult)
  : completion (list string) :=
  match meta (expectation_config r) with
  | Some m =>
      match m !! _custom_property_columns_key with
      | Some props => d ← as_mapping props; Ok (dict_keys d)
      | None => Ok []
      end
  | None => Ok []
  end.

(** The body of the outer loop. *)
Definition discover_step (custom_columns : list string)
    (r : ExpectationValidationResult) : completion (list string) :=
  keys ← declared_columns r; Ok (append_new custom_columns keys).

Definition _get_custom_columns (validation_results : list ExpectationValidationResult)
  : completion (list string) :=
  custom_columns ← for_each discover_step validation_results [];
  Ok (sorted custom_columns).

(** ** Metadata normalization (the loop of [render]) *)

(** [if meta is None: meta = {key: {}}  elif key not in meta: meta[key] = {}] *)
Definition ensure_properties (m : option (gmap string value)) : gmap string value :=
  match m with
  | None => {[ _custom_property_columns_key := VDict ∅ ]}
  | Some m =>
      match m !! _custom_property_columns_key with
      | Some _ => m
      | None => <[ _custom_property_columns_key := VDict ∅ ]> m
      end
  end.

(** [if column not in meta[key]: meta[key][column] = None] *)
Definition ensure_column (m : gmap string value) (column : string)
  : completion (gmap string value) :=
  props ← getitem (VDict m) _custom_property_columns_key;
  d ← as_mapping props;
  match d !! column with
  | Some _ => Ok m
  | None => Ok (<[ _custom_property_columns_key := VDict (<[ column := VNone ]> d) ]> m)
  end.

Definition normalize_result (custom_columns : list string)
    (r : ExpectationValidationResult) : completion ExpectationValidationResult :=
  m ← for_each ensure_column custom_columns
               (ensure_properties (meta (expectation_config r)));
  Ok (set_meta m r).

(** The loop over the validation results.  The loop updates the metadata in
    place; here each result is a value of its own, and the loop returns the
    results with their metadata updated.  Metadata is JSON-like, a tree in
    which no dictionary occurs twice; results that share a configuration hold
    equal metadata and are given equal updates. *)
Fixpoint normalize (custom_columns : list string)
    (validation_results : list ExpectationValidationResult)
  : completion (list ExpectationValidationResult) :=
  match validation_results with
  | [] => Ok []
  | r :: rest =>
      r' ← normalize_result custom_columns r;
      rest' ← normalize custom_columns rest;
      Ok (r' :: rest')
  end.

(** ** Logging *)

Inductive LogLevel := DEBUG | INFO | WARNING | ERROR | CRITICAL.

Record LogRecord := mkLogRecord {
  levelname : LogLevel;
  message : string
}.

(** A result together with the records sent to the logger on the way;
    records emitted before an exception are kept. *)
Definition logged (A : Type) : Type := completion A * list LogRecord.

Global Instance logged_ret : MRet logged := λ A a, (Ok a, []).
Global Instance logged_bind : MBind logged :=
  λ A B f m,
    match m.1 with
    | Ok a => ((f a).1, m.2 ++ (f a).2)
    | Raise r => (Raise r, m.2)
    end.

Definition quiet {A} (c : completion A) : logged A := (c, []).

Definition dquote : string := String "034"%char EmptyString.

Definition data_docs_exception_message : string :=
  "An unexpected Exception occurred during data docs rendering.  Because of this error, certain parts of data docs will "
  +:+ "not be rendered properly and/or may not appear altogether.  Please use the trace, included in this message, to "
  +:+ "diagnose and repair the underlying issue.  Detailed information follows:"
  +:+ String "010"%char "            ".

(** The message built in each [except Exception as e] block. *)
Definition exception_message (e : Exception) : string :=
  data_docs_exception_message
  +:+ exc_name e +:+ ": " +:+ dquote +:+ exc_str e +:+ dquote
  +:+ ".  Traceback: " +:+ dquote +:+ exc_traceback e +:+ dquote +:+ ".".

(** [try: x = body  except Exception as e: logger.error(exception_message)],
    where [x] holds [previous] before the statement: the value of [x] after
    it and the records logged.  The statement itself never raises. *)
Definition try_logging {A} (previous : A) (body : call A) : A * list LogRecord :=
  match body with
  | Returns a => (a, [])
  | Raises e => (previous, [mkLogRecord ERROR (exception_message e)])
  end.

Definition recovered {A} (p : A * list LogRecord) : logged A := (Ok p.1, p.2).

(** ** Custom property columns of a row *)

(** [obj = expectation.meta; for v in value.split("."): obj = obj[v]] *)
Definition resolve_path (m : gmap string value) (path : string) : completion value :=
  for_each getitem (split "." path) (VDict m).

(** The cell appended for one key of the reserved mapping [d] of the
    metadata [m]. *)
Definition custom_property_cell (m d : gmap string value) (key : string)
  : completion value :=
  v ← getitem (VDict d) key;
  match v with
  | VNone => Ok (VList [VStr "N/A"])
  | VStr path =>
      match resolve_path m path with
      | Ok obj => Ok (VList [obj])
      | Raise (KeyError _) => Ok (VList [VStr "N/A"])
      | Raise r => Raise r
      end
  | _ => Raise AttributeError
  end.

Definition custom_property_values (expectation : ExpectationConfiguration)
  : completion (list value) :=
  match meta expectation with
  | Some m =>
      match m !! _custom_property_columns_key with
      | Some props =>
          d ← as_mapping props;
          for_each (λ custom_property_values key,
                      cell ← custom_property_cell m d key;
                      Ok (custom_property_values ++ [cell]))
                   (sorted (dict_keys d)) []
      | None => Ok []
      end
  | None => Ok []
  end.

(** ** Rendered table *)

Record RenderedTableContent := mkTable {
  header : value;
  header_row : list string;
  header_row_options : gmap string value;
  styling : option (gmap string value);
  table : list (list value)
}.

Definition hide_succeeded_class : string :=
  "hide-succeeded-validations-column-section-target-child".

Definition sortable : value := VDict {[ "sortable" := VBool true ]}.

(** ** The renderer *)

(** The registry behind [get_renderer_impl(object_name, renderer_type)], one
    lookup per renderer type used by the module.  A lookup returns the
    renderer function or nothing; the prescriptive renderer takes the
    configuration and the runtime configuration, the diagnostic ones take the
    validation result. *)
Record Registry := mkRegistry {
  renderer_prescriptive :
    string → option (ExpectationConfiguration → option (gmap string value)
                     → call (list value));
  renderer_diagnostic_status_icon :
    string → option (ExpectationValidationResult → call value);
  renderer_diagnostic_unexpected_statement :
    string → option (ExpectationValidationResult → call (list value));
  renderer_diagnostic_unexpected_table :
    string → option (ExpectationValidationResult → call value);
  renderer_diagnostic_observed_value :
    string → option (ExpectationValidationResult → call value)
}.

Section Renderer.

Variable get_renderer_impl : Registry.

(** The two renderers inherited from [ExpectationStringRenderer]. *)
Variable _missing_content_block_fn :
  ExpectationConfiguration → option (gmap string value) → call (list value).
Variable _diagnostic_status_icon_renderer :
  ExpectationValidationResult → call value.

(** The inherited [_process_content_block] and [render]. *)
Variable super_process_content_block :
  RenderedTableContent → option bool → RenderedTableContent.
Variable super_render :
  list ExpectationValidationResult → gmap string value
  → completion RenderedTableContent.

(** [render]: discovery, normalization of the metadata of every result,
    then the inherited [render] on the normalized results. *)
Definition render (validation_results : list ExpectationValidationResult)
    (kw : gmap string value)
  : completion (list ExpectationValidationResult * RenderedTableContent) :=
  custom_columns ← _get_custom_columns validation_results;
  validation_results ← normalize custom_columns validation_results;
  content_block ← super_render validation_results kw;
  Ok (validation_results, content_block).

(** [styling["classes"].append(flag)] when [styling.get("classes")] is
    true, [styling["classes"] = [flag]] otherwise. *)
Definition add_class (flag : string) (styling : gmap string value)
  : completion (gmap string value) :=
  match styling !! "classes" with
  | Some classes =>
      if truthy classes then
        match classes with
        | VList l => Ok (<[ "classes" := VList (l ++ [VStr flag]) ]> styling)
        | _ => Raise AttributeError
        end
      else Ok (<[ "classes" := VList [VStr flag] ]> styling)
  | None => Ok (<[ "classes" := VList [VStr flag] ]> styling)
  end.

Definition _process_content_block (content_block : RenderedTableContent)
    (has_failed_evr : option bool)
    (render_object : option (list ExpectationValidationResult))
  : completion RenderedTableContent :=
  let content_block := super_process_content_block content_block has_failed_evr in
  let header_row := ["Status"; "Expectation"; "Observed Value"] in
  let header_row_options : gmap string value := {[ "Status" := sortable ]} in
  '(header_row, header_row_options) ←
    match render_object with
    | Some render_object =>
        custom_columns ← _get_custom_columns render_object;
        Ok (header_row ++ custom_columns,
            foldl (λ options column, <[ column := sortable ]> options)
                  header_row_options custom_columns)
    | None => Ok (header_row, header_row_options)
    end;
  styling' ←
    match has_failed_evr with
    | Some false =>
        let styling0 :=
          match styling content_block with
          | Some s => if bool_decide (s = ∅) then ∅ else s
          | None => ∅
          end in
        s ← add_class hide_succeeded_class styling0;
        Ok (Some s)
    | _ => Ok (styling content_block)
    end;
  Ok (mkTable (header content_block) header_row header_row_options styling'
              (table content_block)).

(** [kwargs.get("evaluation_parameters")] loaded into the runtime
    configuration when it is not None. *)
Definition load_evaluation_parameters
    (runtime_configuration : option (gmap string value))
    (kw : gmap string value) : completion (option (gmap string value)) :=
  match kw !! "evaluation_parameters" with
  | None | Some VNone => Ok runtime_configuration
  | Some eval_param_value_dict =>
      match runtime_configuration with
      | Some rc => Ok (Some (<[ "evaluation_parameters" := eval_param_value_dict ]> rc))
      | None => Raise TypeError
      end
  end.

(** The description fragments after the unexpected statement and the
    unexpected table have been merged in. *)
Definition merge_unexpected (expectation_string_cell unexpected_statement : list value)
    (unexpected_table : value) : list value :=
  let cell :=
    if bool_decide (unexpected_statement = []) then expectation_string_cell
    else expectation_string_cell ++ unexpected_statement in
  if truthy unexpected_table then cell ++ [unexpected_table] else cell.

(** [status_cell + [expectation_string_cell] + observed_value] when the
    description holds more than one fragment, and
    [status_cell + expectation_string_cell + observed_value] otherwise. *)
Definition base_row (status_cell expectation_string_cell observed_value : list value)
  : list value :=
  if bool_decide (1 < length expectation_string_cell)
  then status_cell ++ [VList expectation_string_cell] ++ observed_value
  else status_cell ++ expectation_string_cell ++ observed_value.

(** The renderer calls of a row, each with what stands in for a renderer
    that the registry does not have. *)
Definition status_icon_call (expectation_type : string)
    (result : ExpectationValidationResult) : call value :=
  match renderer_diagnostic_status_icon get_renderer_impl expectation_type with
  | Some status_icon_renderer => status_icon_renderer result
  | None => _diagnostic_status_icon_renderer result
  end.

Definition unexpected_statement_call (expectation_type : string)
    (result : ExpectationValidationResult) : call (list value) :=
  match renderer_diagnostic_unexpected_statement get_renderer_impl expectation_type with
  | Some unexpected_statement_renderer => unexpected_statement_renderer result
  | None => Returns []
  end.

Definition unexpected_table_call (expectation_type : string)
    (result : ExpectationValidationResult) : call value :=
  match renderer_diagnostic_unexpected_table get_renderer_impl expectation_type with
  | Some unexpected_table_renderer => unexpected_table_renderer result
  | None => Returns VNone
  end.

Definition observed_value_call (expectation_type : string)
    (result : ExpectationValidationResult) : call (list value) :=
  match renderer_diagnostic_observed_value get_renderer_impl expectation_type with
  | Some observed_value_renderer =>
      match observed_value_renderer result with
      | Returns v => Returns [v]
      | Raises e => Raises e
      end
  | None => Returns [VStr "--"]
  end.

Definition row_generator_fn (expectation_type : string)
    (expectation_string_fn :
       ExpectationConfiguration → option (gmap string value) → call (list value))
    (result : ExpectationValidationResult)
    (runtime_configuration : option (gmap string value))
    (kw : gmap string value) : logged (list (list value)) :=
  runtime_configuration ← quiet (load_evaluation_parameters runtime_configuration kw);
  let expectation := expectation_config result in
  expectation_string_cell ←
    quiet (of_call (expectation_string_fn expectation runtime_configuration));
  status ← quiet (of_call (status_icon_call expectation_type result));
  let status_cell := [status] in
  unexpected_statement ←
    recovered (try_logging [] (unexpected_statement_call expectation_type result));
  unexpected_table ←
    recovered (try_logging VNone (unexpected_table_call expectation_type result));
  observed_value ←
    recovered (try_logging [VStr "--"] (observed_value_call expectation_type result));
  let expectation_string_cell :=
    merge_unexpected expectation_string_cell unexpected_statement unexpected_table in
  let row := base_row status_cell expectation_string_cell observed_value in
  custom_property_values ← quiet (custom_property_values expectation);
  mret [row ++ custom_property_values].

(** The prescriptive renderer of the type, or the inherited one. *)
Definition expectation_string_fn (expectation_type : string)
  : ExpectationConfiguration → option (gmap string value) → call (list value) :=
  match renderer_prescriptive get_renderer_impl expectation_type with
  | Some f => f
  | None => _missing_content_block_fn
  end.

Definition _get_content_block_fn (expectation_type : string) :=
  row_generator_fn expectation_type (expectation_string_fn expectation_type).

End Renderer.

(** ** Well-typed metadata *)

(** The reserved key, when the metadata has it, holds a mapping. *)
Definition properties_mapping (r : ExpectationValidationResult) : bool :=
  match meta (expectation_config r) with
  | Some m =>
      match m !! _custom_property_columns_key with
      | Some (VDict _) | None => true
      | Some _ => false
      end
  | None => true
  end.

(** [key] is a column name of the reserved mapping of [r]. *)
Definition declares (r : ExpectationValidationResult) (key : string) : Prop :=
  ∃ m d, meta (expectation_config r) = Some m
         ∧ m !! _custom_property_columns_key = Some (VDict d)
         ∧ is_Some (d !! key).

(** The mapping under the reserved key of the metadata of [r]; the empty
    mapping when the metadata or the key is missing. *)
Definition declared_paths (r : ExpectationValidationResult) : gmap string value :=
  match meta (expectation_config r) with
  | Some m =>
      match m !! _custom_property_columns_key with
      | Some (VDict d) => d
      | _ => ∅
      end
  | None => ∅
  end.

(** Every result of the list has well-typed metadata. *)
Definition well_typed (validation_results : list ExpectationValidationResult) : bool :=
  forallb properties_mapping validation_results.

(** Two registries give the same renderer calls for the type [ty] at the
    result [r]. *)
Definition same_calls_at (reg reg' : Registry)
    (icon_default : ExpectationValidationResult → call value)
    (ty : string) (r : ExpectationValidationResult) : Prop :=
  status_icon_call reg icon_default ty r = status_icon_call reg' icon_default ty r
  ∧ unexpected_statement_call reg ty r = unexpected_statement_call reg' ty r
  ∧ unexpected_table_call reg ty r = unexpected_table_call reg' ty r
  ∧ observed_value_call reg ty r = observed_value_call reg' ty r.

(** Modelled from the spec: the [has_failed_evr] argument that the inherited
    [render] (not among the sources) passes to [_process_content_block]: False
    when the result set contains no failing outcome, True when it has one. *)
Definition has_failed_evr (validation_results : list ExpectationValidationResult)
  : option bool :=
  Some (existsb (λ r, negb (success r)) validation_results).

(** The classes that a styling has: the list under ["classes"] if any. *)
Definition existing_classes (styling : gmap string value) : list value :=
  match styling !! "classes" with
  | Some (VList l) => l
  | _ => []
  end.

(** The value under ["classes"], when the styling has one that is true, is
    a list. *)
Definition classes_appendable (styling : gmap string value) : bool :=
  match styling !! "classes" with
  | Some (VList _) | None => true
  | Some v => negb (truthy v)
  end.

(** The results given as [render_object], if any, have well-typed metadata. *)
Definition render_object_well_typed
    (render_object : option (list ExpectationValidationResult)) : bool :=
  match render_object with
  | Some validation_results => well_typed validation_results
  | None => true
  end.

(** [sub] occurs in [s]. *)
Definition occurs_in (sub s : string) : Prop := ∃ pre post, s = pre +:+ sub +:+ post.

(** ** Sample renderers and validation results *)

Module Sample.

Definition boom : Exception :=
  mkException "ValueError" "boom" "Traceback (most recent call last): ...".

Definition missing_content_block_fn
    (configuration : ExpectationConfiguration)
    (runtime_configuration : option (gmap string value)) : call (list value) :=
  Returns [VContent (expectation_type configuration)].

Definition status_icon_renderer (r : ExpectationValidationResult) : call value :=
  Returns (VContent (if success r then "success" else "failure")).

(** No renderer registered. *)
Definition no_renderer : Registry :=
  mkRegistry (λ _, None) (λ _, None) (λ _, None) (λ _, None) (λ _, None).

(** A prescriptive renderer that returns no fragment. *)
Definition empty_description : Registry :=
  mkRegistry (λ _, Some (λ _ _, Returns [])) (λ _, None) (λ _, None) (λ _, None)
             (λ _, None).

(** Renderers of every type that return. *)
Definition all_renderers : Registry :=
  mkRegistry (λ _, Some (λ _ _, Returns [VContent "description"]))
             (λ _, Some (λ _, Returns (VContent "icon")))
             (λ _, Some (λ _, Returns [VContent "statement"]))
             (λ _, Some (λ _, Returns (VContent "table")))
             (λ _, Some (λ _, Returns (VInt 7))).

(** One renderer that raises, the others as in [all_renderers]. *)
Definition failing_prescriptive : Registry :=
  mkRegistry (λ _, Some (λ _ _, Raises boom))
             (renderer_diagnostic_status_icon all_renderers)
             (renderer_diagnostic_unexpected_statement all_renderers)
             (renderer_diagnostic_unexpected_table all_renderers)
             (renderer_diagnostic_observed_value all_renderers).


Definition failing_unexpected_statement : Registry :=
  mkRegistry (renderer_prescriptive all_renderers)
             (renderer_diagnostic_status_icon all_renderers)
             (λ _, Some (λ _, Raises boom))
             (renderer_diagnostic_unexpected_table all_renderers)
             (renderer_diagnostic_observed_value all_renderers).

(** Metadata [{a: {b: 5}}] with the custom columns given. *)
Definition meta_with (columns : gmap string value) : gmap string value :=
  <[ "a" := VDict {[ "b" := VInt 5 ]} ]>
    {[ _custom_property_columns_key := VDict columns ]}.

Definition result_with (ty : string) (passed : bool)
    (m : option (gmap string value)) : ExpectationValidationResult :=
  mkValidationResult passed (mkConfiguration ty (VDict ∅) m) (VDict ∅).

(** A passing result without metadata. *)
Definition plain : ExpectationValidationResult := result_with "T1" true None.

(** A failing result with the columns X (resolves to 5), Y (missing
    segment) and Z (no path). *)
Definition with_columns : ExpectationValidationResult :=
  result_with "T2" false
    (Some (meta_with (<[ "X" := VStr "a.b" ]>
                      (<[ "Y" := VStr "a.c" ]> {[ "Z" := VNone ]})))).

(** A result whose column W has a path that goes through the number 5. *)
Definition through_number : ExpectationValidationResult :=
  result_with "T2" true (Some (meta_with {[ "W" := VStr "a.b.c" ]})).

Definition styled (classes : option (gmap string value)) : RenderedTableContent :=
  mkTable VNone [] ∅ classes [].

End Sample.

(** ** Further predicates on the input *)

(** The reserved key holds None, a boolean or a number: a value that Python
    can neither iterate nor test with [in]. *)
Definition reserved_not_iterable (r : ExpectationValidationResult) : bool :=
  match meta (expectation_config r) with
  | Some m =>
      match m !! _custom_property_columns_key with
      | Some VNone | Some (VBool _) | Some (VInt _) => true
      | _ => false
      end
  | None => false
  end.

(** A string, a number, a boolean or a dictionary: the JSON-like values
    without an [append] method. *)
Definition without_append (v : value) : bool :=
  match v with
  | VStr _ | VInt _ | VBool _ | VDict _ => true
  | _ => false
  end.

(** The character [.] occurs in [s]. *)
Fixpoint has_dot (s : string) : bool :=
  match s with
  | EmptyString => false
  | String c rest => Ascii.eqb c "." || has_dot rest
  end.

(** A path value of the reserved mapping that the row generator can
    resolve in the metadata [m]: None, or a string whose walk does not end
    on a subscript of a value that is not a mapping. *)
Definition resolvable (m : gmap string value) (v : value) : bool :=
  match v with
  | VNone => true
  | VStr path =>
      match resolve_path m path with
      | Raise TypeError => false
      | _ => true
      end
  | _ => false
  end.

(** The content of the cell of a resolvable path value. *)
Definition resolved_cell (m : gmap string value) (v : value) : value :=
  match v with
  | VStr path =>
      match resolve_path m path with
      | Ok obj => VList [obj]
      | Raise _ => VList [VStr "N/A"]
      end
  | _ => VList [VStr "N/A"]
  end.

Module Fixture.

(** A result whose reserved key holds None. *)
Definition none_under_key : ExpectationValidationResult :=
  Sample.result_with "T3" true (Some {[ _custom_property_columns_key := VNone ]}).

(** A result that declares the column X only. *)
Definition only_x : ExpectationValidationResult :=
  Sample.result_with "T4" true (Some (Sample.meta_with {[ "X" := VStr "a.b" ]})).

(** A result whose column N has a number for a path. *)
Definition number_for_path : ExpectationValidationResult :=
  Sample.result_with "T5" true (Some (Sample.meta_with {[ "N" := VInt 3 ]})).

(** Renderers of the three guarded types that all raise. *)
Definition failing_diagnostics : Registry :=
  mkRegistry (renderer_prescriptive Sample.all_renderers)
             (renderer_diagnostic_status_icon Sample.all_renderers)
             (λ _, Some (λ _, Raises Sample.boom))
             (λ _, Some (λ _, Raises Sample.boom))
             (λ _, Some (λ _, Raises Sample.boom)).

(** A prescriptive renderer that returns no fragment, with an unexpected
    statement renderer that returns one. *)
Definition statement_without_description : Registry :=
  mkRegistry (λ _, Some (λ _ _, Returns []))
             (λ _, None)
             (λ _, Some (λ _, Returns [VContent "statement"]))
             (λ _, None)
             (λ _, None).

(** The default styling of the content block of the class. *)
Definition _default_content_block_styling : gmap string value :=
  <[ "body" := VDict {[ "classes" := VList [VStr "table"] ]} ]>
    {[ "classes" := VList [VStr "ml-2"; VStr "mr-2"; VStr "mt-0"; VStr "mb-0";
                           VStr "table-responsive"] ]}.

End Fixture.

(** * Properties *)

(** ** Results and loops *)

Lemma bind_Ok {A B} (c : completion A) (f : A → completion B) b :
  c ≫= f = Ok b ↔ ∃ a, c = Ok a ∧ f a = Ok b.
Proof.
  destruct c as [a|r]; simpl; split.
  - eauto.
  - intros (a' & [= <-] & ?). done.
  - done.
  - intros (? & [=] & _).
Qed.

Lemma for_each_app {A S} (body : S → A → completion S) xs ys acc :
  for_each body (xs ++ ys) acc = for_each body xs acc ≫= for_each body ys.
Proof.
  revert acc. induction xs as [|x xs IH]; intros acc; simpl; [done|].
  destruct (body acc x); simpl; auto.
Qed.

(** ** [sorted] *)

Lemma sorted_StronglySorted xs : StronglySorted String.le (sorted xs).
Proof. apply (StronglySorted_merge_sort _). Qed.

Lemma sorted_Permutation xs : sorted xs ≡ₚ xs.
Proof. apply merge_sort_Permutation. Qed.

Lemma sorted_elem_of xs x : x ∈ sorted xs ↔ x ∈ xs.
Proof. by rewrite sorted_Permutation. Qed.

Lemma sorted_length xs : length (sorted xs) = length xs.
Proof. by rewrite sorted_Permutation. Qed.

Lemma sorted_NoDup xs : NoDup xs → NoDup (sorted xs).
Proof. by rewrite sorted_Permutation. Qed.

(** The sorted list only depends on the elements sorted. *)
Lemma sorted_Permutation_eq xs ys : xs ≡ₚ ys → sorted xs = sorted ys.
Proof.
  intros Hp. apply (StronglySorted_unique String.le);
    [apply sorted_StronglySorted..|].
  by rewrite !sorted_Permutation.
Qed.

Lemma sorted_same_elements xs ys :
  NoDup xs → NoDup ys → (∀ x, x ∈ xs ↔ x ∈ ys) → sorted xs = sorted ys.
Proof. intros. by apply sorted_Permutation_eq, NoDup_Permutation. Qed.

(** ** Dictionaries *)

Lemma elem_of_dict_keys (d : gmap string value) k :
  k ∈ dict_keys d ↔ is_Some (d !! k).
Proof.
  unfold dict_keys. rewrite list_elem_of_fmap. split.
  - intros ([k' v] & -> & Hin). apply elem_of_map_to_list in Hin. eauto.
  - intros [v Hv]. exists (k, v). split; [done|]. by apply elem_of_map_to_list.
Qed.

Lemma NoDup_dict_keys (d : gmap string value) : NoDup (dict_keys d).
Proof. apply NoDup_fst_map_to_list. Qed.

Lemma length_dict_keys (d : gmap string value) : length (dict_keys d) = size d.
Proof. unfold dict_keys. by rewrite length_fmap, length_map_to_list. Qed.

(** ** Column discovery *)

Lemma well_typed_elem_of validation_results :
  well_typed validation_results = true →
  ∀ r, r ∈ validation_results → properties_mapping r = true.
Proof.
  unfold well_typed. rewrite forallb_forall. intros H r Hr.
  by apply H, list_elem_of_In.
Qed.

Lemma append_new_elem_of keys acc k :
  k ∈ append_new acc keys ↔ k ∈ acc ∨ k ∈ keys.
Proof.
  unfold append_new. revert acc.
  induction keys as [|key keys IH]; intros acc; simpl.
  - rewrite elem_of_nil. tauto.
  - rewrite IH, elem_of_cons. case_bool_decide as Hin.
    + split; [tauto|]. intros [?|[->|?]]; auto.
    + rewrite elem_of_app, list_elem_of_singleton. tauto.
Qed.

Lemma append_new_NoDup keys acc : NoDup acc → NoDup (append_new acc keys).
Proof.
  unfold append_new. revert acc.
  induction keys as [|key keys IH]; intros acc Hnd; simpl; [done|].
  apply IH. case_bool_decide as Hin; [done|].
  apply NoDup_app. split_and!; [done| |apply NoDup_singleton].
  intros x Hx ->%list_elem_of_singleton. done.
Qed.

Lemma declared_columns_Ok r :
  properties_mapping r = true →
  ∃ keys, declared_columns r = Ok keys ∧ ∀ k, k ∈ keys ↔ declares r k.
Proof.
  unfold properties_mapping, declared_columns, declares.
  destruct (meta (expectation_config r)) as [m|].
  - destruct (m !! _custom_property_columns_key) as [props|] eqn:Hp.
    + destruct props as [| | | | |d|]; try done. intros _.
      exists (dict_keys d). split; [done|].
      intros k. rewrite elem_of_dict_keys. split.
      * intros ?. by exists m, d.
      * intros (m' & d' & [= <-] & Hd & ?). by simplify_eq.
    + intros _. exists []. split; [done|]. intros k. rewrite elem_of_nil.
      split; [done|]. intros (m' & d' & [= <-] & Hd & _). congruence.
  - intros _. exists []. split; [done|]. intros k. rewrite elem_of_nil.
    split; [done|]. intros (? & ? & ? & _). done.
Qed.

Lemma discover_loop validation_results acc :
  (∀ r, r ∈ validation_results → properties_mapping r = true) →
  ∃ custom_columns,
    for_each discover_step validation_results acc = Ok custom_columns
    ∧ (NoDup acc → NoDup custom_columns)
    ∧ ∀ k, k ∈ custom_columns ↔
           k ∈ acc ∨ ∃ r, r ∈ validation_results ∧ declares r k.
Proof.
  revert acc. induction validation_results as [|r rs IH]; intros acc Hwf; simpl.
  - exists acc. split_and!; [done..|]. intros k. split; [auto|].
    intros [?|(? & []%elem_of_nil & _)]. done.
  - destruct (declared_columns_Ok r) as (keys & Hkeys & Hin).
    { apply Hwf. left. }
    unfold discover_step at 2. rewrite Hkeys. simpl.
    destruct (IH (append_new acc keys)) as (cols & Hcols & Hnd & Hel).
    { intros r' ?. apply Hwf. by right. }
    exists cols. split_and!; [done| |].
    + intros ?. by apply Hnd, append_new_NoDup.
    + intros k. rewrite Hel, append_new_elem_of, Hin. split.
      * intros [[?|?]|(r' & ? & ?)]; [by left|right..].
        -- exists r. split; [left|done].
        -- exists r'. split; [by right|done].
      * intros [?|(r' & [->|?]%elem_of_cons & ?)]; [by left; left|by left; right|].
        right. eauto.
Qed.

Lemma _get_custom_columns_unfold validation_results :
  _get_custom_columns validation_results =
  for_each discover_step validation_results [] ≫= λ cols, Ok (sorted cols).
Proof. done. Qed.

(** What discovery returns on well-typed metadata. *)
Lemma _get_custom_columns_spec validation_results :
  (∀ r, r ∈ validation_results → properties_mapping r = true) →
  ∃ custom_columns,
    _get_custom_columns validation_results = Ok custom_columns
    ∧ StronglySorted String.le custom_columns
    ∧ NoDup custom_columns
    ∧ ∀ k, k ∈ custom_columns ↔ ∃ r, r ∈ validation_results ∧ declares r k.
Proof.
  intros Hwf. destruct (discover_loop validation_results [] Hwf)
    as (cols & Hcols & Hnd & Hel).
  exists (sorted cols). rewrite _get_custom_columns_unfold, Hcols. simpl.
  split_and!; [done|apply sorted_StronglySorted| |].
  - apply sorted_NoDup, Hnd, NoDup_nil_2.
  - intros k. rewrite sorted_elem_of, Hel, elem_of_nil. tauto.
Qed.

(** Two lists of strings that are sorted, without duplicates and with the
    same elements are equal. *)
Lemma sorted_lists_eq (xs ys : list string) :
  StronglySorted String.le xs → StronglySorted String.le ys →
  NoDup xs → NoDup ys → (∀ x, x ∈ xs ↔ x ∈ ys) → xs = ys.
Proof.
  intros. apply (StronglySorted_unique String.le); [done..|].
  by apply NoDup_Permutation.
Qed.

(** C5: column discovery returns the custom-column names found under the
    reserved metadata key, without duplicates and sorted in ascending
    lexicographic order; it returns the same list on every permutation of the
    validation results, and the empty list when no result declares a custom
    column.  The embedding of [_get_custom_columns] only reads the results:
    it returns the list and writes nothing. *)
Theorem get_custom_columns_sorted_set
    (validation_results : list ExpectationValidationResult) :
  well_typed validation_results = true →
  ∃ custom_columns,
    _get_custom_columns validation_results = Ok custom_columns
    ∧ StronglySorted String.le custom_columns
    ∧ NoDup custom_columns
    ∧ (∀ k, k ∈ custom_columns ↔ ∃ r, r ∈ validation_results ∧ declares r k)
    ∧ (∀ permuted, permuted ≡ₚ validation_results →
         _get_custom_columns permuted = Ok custom_columns)
    ∧ ((∀ r k, r ∈ validation_results → ¬ declares r k) → custom_columns = []).
Proof.
  intros Hwf. pose proof (well_typed_elem_of _ Hwf) as Hwf'. clear Hwf. rename Hwf' into Hwf.
  destruct (_get_custom_columns_spec _ Hwf) as (cols & Hcols & Hs & Hnd & Hel).
  exists cols. split_and!; [done..| |].
  - intros permuted Hp.
    destruct (_get_custom_columns_spec permuted) as (cols' & Hcols' & Hs' & Hnd' & Hel').
    { intros r Hr. apply Hwf. by rewrite <-Hp. }
    rewrite Hcols'. f_equal. apply sorted_lists_eq; [done..|].
    intros k. rewrite Hel, Hel'. by setoid_rewrite Hp.
  - intros Hnone. destruct cols as [|k cols]; [done|].
    destruct (proj1 (Hel k)) as (r & Hr & Hd); [left|]. by destruct (Hnone r k).
Qed.

(** ** Metadata normalization *)

Lemma for_each_fixed {A S} (body : S → A → completion S) xs acc :
  (∀ x, x ∈ xs → body acc x = Ok acc) → for_each body xs acc = Ok acc.
Proof.
  induction xs as [|x xs IH]; intros Hfix; simpl; [done|].
  rewrite Hfix by left. simpl. apply IH. intros y ?. apply Hfix. by right.
Qed.

Lemma ensure_properties_lookup m :
  is_Some (ensure_properties m !! _custom_property_columns_key).
Proof.
  unfold ensure_properties. destruct m as [m|].
  - destruct (m !! _custom_property_columns_key) eqn:Hm; [by rewrite Hm|].
    rewrite lookup_insert_eq. eauto.
  - rewrite lookup_singleton_eq. eauto.
Qed.

Lemma ensure_properties_fixed m :
  is_Some (m !! _custom_property_columns_key) → ensure_properties (Some m) = m.
Proof. intros [props Hm]. unfold ensure_properties. by rewrite Hm. Qed.

(** One step of the inner loop: the mapping under the reserved key gets the
    column, with value None, unless it has it. *)
Lemma ensure_column_Ok m column m' :
  ensure_column m column = Ok m' ↔
  ∃ d, m !! _custom_property_columns_key = Some (VDict d)
       ∧ m' = match d !! column with
              | Some _ => m
              | None => <[ _custom_property_columns_key :=
                             VDict (<[ column := VNone ]> d) ]> m
              end.
Proof.
  unfold ensure_column. simpl.
  destruct (m !! _custom_property_columns_key) as [props|]; simpl.
  - destruct props as [| | | | |d|]; simpl;
      try (split; [done|by intros (? & [=] & _)]).
    split.
    + intros H. exists d. split; [done|]. by destruct (d !! column); simplify_eq.
    + intros (d' & [= <-] & ->). by destruct (d !! column).
  - split; [done|]. by intros (? & [=] & _).
Qed.

Lemma ensure_column_present m d column :
  m !! _custom_property_columns_key = Some (VDict d) → is_Some (d !! column) →
  ensure_column m column = Ok m.
Proof.
  intros Hm [v Hv]. apply ensure_column_Ok. exists d. by rewrite Hv.
Qed.

(** After the inner loop, the mapping under the reserved key has every
    column of the list, the entries it had are kept, and the other keys of
    the metadata are untouched. *)
Lemma ensure_columns_Ok custom_columns m d :
  m !! _custom_property_columns_key = Some (VDict d) →
  ∃ d', for_each ensure_column custom_columns m
        = Ok (<[ _custom_property_columns_key := VDict d' ]> m)
        ∧ ∀ k, d' !! k = match d !! k with
                         | Some v => Some v
                         | None => if bool_decide (k ∈ custom_columns)
                                   then Some VNone else None
                         end.
Proof.
  revert m d. induction custom_columns as [|column columns IH]; intros m d Hm.
  - exists d. simpl. split; [by rewrite insert_id|].
    intros k. by destruct (d !! k).
  - simpl. destruct (d !! column) as [v|] eqn:Hc.
    + rewrite (ensure_column_present m d) by eauto. simpl.
      destruct (IH m d Hm) as (d' & -> & Hd'). exists d'. split; [done|].
      intros k. rewrite Hd'. destruct (d !! k) eqn:Hk; [done|].
      assert (k ≠ column) by congruence.
      rewrite (bool_decide_ext (k ∈ column :: columns) (k ∈ columns)); [done|].
      rewrite elem_of_cons. tauto.
    + assert (ensure_column m column
              = Ok (<[ _custom_property_columns_key := VDict (<[ column := VNone ]> d) ]> m))
        as ->.
      { apply ensure_column_Ok. exists d. by rewrite Hc. }
      simpl.
      destruct (IH (<[ _custom_property_columns_key := VDict (<[ column := VNone ]> d) ]> m)
                   (<[ column := VNone ]> d)) as (d' & -> & Hd').
      { apply lookup_insert_eq. }
      exists d'. rewrite insert_insert_eq. split; [done|].
      intros k. rewrite Hd'. destruct (decide (k = column)) as [->|Hne].
      * rewrite lookup_insert_eq, Hc. by rewrite bool_decide_eq_true_2 by left.
      * rewrite lookup_insert_ne by done. destruct (d !! k); [done|].
        rewrite (bool_decide_ext (k ∈ column :: columns) (k ∈ columns)); [done|].
      rewrite elem_of_cons. tauto.
Qed.

(** The loop only succeeds on a non-empty list of columns when the reserved
    key holds a mapping. *)
Lemma ensure_columns_inv custom_columns m m' :
  for_each ensure_column custom_columns m = Ok m' →
  custom_columns = [] ∧ m' = m
  ∨ ∃ d, m !! _custom_property_columns_key = Some (VDict d).
Proof.
  destruct custom_columns as [|column columns]; simpl; [intros [= <-]; by left|].
  intros (m1 & (d & Hm & _)%ensure_column_Ok & _)%bind_Ok. right. eauto.
Qed.

Lemma set_meta_meta m r : meta (expectation_config (set_meta m r)) = Some m.
Proof. done. Qed.

Lemma set_meta_set_meta m1 m2 r : set_meta m2 (set_meta m1 r) = set_meta m2 r.
Proof. done. Qed.

(** A second run of the loop on the metadata of one result changes nothing. *)
Lemma normalize_result_idempotent custom_columns r r' :
  normalize_result custom_columns r = Ok r' →
  normalize_result custom_columns r' = Ok r'.
Proof.
  unfold normalize_result. intros (m' & Hloop & [= <-])%bind_Ok.
  rewrite set_meta_meta.
  assert (for_each ensure_column custom_columns (ensure_properties (Some m')) = Ok m')
    as ->; [|done].
  destruct (ensure_columns_inv _ _ _ Hloop) as [[-> ->]|(d & Hd)].
  - by rewrite ensure_properties_fixed by apply ensure_properties_lookup.
  - destruct (ensure_columns_Ok custom_columns _ _ Hd) as (d' & Hloop' & Hd').
    rewrite Hloop' in Hloop. injection Hloop as <-.
    rewrite ensure_properties_fixed by (rewrite lookup_insert_eq; eauto).
    apply for_each_fixed.
    intros column Hin. apply (ensure_column_present _ d'); [apply lookup_insert_eq|].
    rewrite Hd'. destruct (d !! column); [eauto|].
    rewrite bool_decide_eq_true_2 by done. eauto.
Qed.

Lemma normalize_Ok custom_columns validation_results normalized :
  normalize custom_columns validation_results = Ok normalized ↔
  Forall2 (λ r r', normalize_result custom_columns r = Ok r')
          validation_results normalized.
Proof.
  revert normalized. induction validation_results as [|r rs IH]; intros normalized; simpl.
  - split; [intros [= <-]; constructor|by intros ->%Forall2_nil_inv_l].
  - split.
    + intros (r' & Hr & (rs' & Hrs & [= <-])%bind_Ok)%bind_Ok.
      constructor; [done|]. by apply IH.
    + intros (r' & rs' & Hr & Hrs & ->)%Forall2_cons_inv_l.
      rewrite Hr. simpl. apply IH in Hrs. by rewrite Hrs.
Qed.

Lemma normalize_idempotent custom_columns validation_results normalized :
  normalize custom_columns validation_results = Ok normalized →
  normalize custom_columns normalized = Ok normalized.
Proof.
  rewrite !normalize_Ok. induction 1 as [|r r' rs rs' Hr _ IH]; constructor;
    [by eapply normalize_result_idempotent|done].
Qed.

(** The metadata of a result after the loop. *)
Lemma normalize_result_spec custom_columns r :
  properties_mapping r = true →
  ∃ m' d',
    normalize_result custom_columns r = Ok (set_meta m' r)
    ∧ m' !! _custom_property_columns_key = Some (VDict d')
    ∧ (∀ k, k ≠ _custom_property_columns_key →
            m' !! k = default ∅ (meta (expectation_config r)) !! k)
    ∧ ∀ k, d' !! k =
           match declared_paths r !! k with
           | Some v => Some v
           | None => if bool_decide (k ∈ custom_columns) then Some VNone else None
           end.
Proof.
  unfold properties_mapping, normalize_result, declared_paths. intros Hwf.
  set (m0 := ensure_properties (meta (expectation_config r))).
  assert (∃ d0, m0 !! _custom_property_columns_key = Some (VDict d0)
          ∧ d0 = match meta (expectation_config r) with
                 | Some m =>
                     match m !! _custom_property_columns_key with
                     | Some (VDict d) => d
                     | _ => ∅
                     end
                 | None => ∅
                 end
          ∧ ∀ k, k ≠ _custom_property_columns_key →
                 m0 !! k = default ∅ (meta (expectation_config r)) !! k)
    as (d0 & Hm0 & Hd0 & Hother).
  { subst m0. unfold ensure_properties.
    destruct (meta (expectation_config r)) as [m|]; simpl.
    - destruct (m !! _custom_property_columns_key) as [props|] eqn:Hp; simpl.
      + destruct props as [| | | | |d|]; try done. by exists d.
      + exists ∅. split; [apply lookup_insert_eq|]. split; [done|].
        intros k ?. by rewrite lookup_insert_ne.
    - exists ∅. split; [apply lookup_singleton_eq|]. split; [done|].
      intros k ?. by rewrite lookup_singleton_ne. }
  destruct (ensure_columns_Ok custom_columns m0 d0 Hm0) as (d' & Hloop & Hd').
  eexists _, d'. rewrite Hloop. simpl. split_and!; [done| | |].
  - apply lookup_insert_eq.
  - intros k Hk. rewrite lookup_insert_ne by done. by apply Hother.
  - intros k. rewrite Hd', Hd0. done.
Qed.

Lemma normalize_spec custom_columns validation_results :
  (∀ r, r ∈ validation_results → properties_mapping r = true) →
  ∃ normalized,
    normalize custom_columns validation_results = Ok normalized
    ∧ Forall2
        (λ r r', ∃ m' d',
           r' = set_meta m' r
           ∧ m' !! _custom_property_columns_key = Some (VDict d')
           ∧ (∀ k, k ≠ _custom_property_columns_key →
                   m' !! k = default ∅ (meta (expectation_config r)) !! k)
           ∧ ∀ k, d' !! k =
                  match declared_paths r !! k with
                  | Some v => Some v
                  | None => if bool_decide (k ∈ custom_columns)
                            then Some VNone else None
                  end)
        validation_results normalized.
Proof.
  induction validation_results as [|r rs IH]; intros Hwf.
  - exists []. split; [done|constructor].
  - destruct (normalize_result_spec custom_columns r) as (m' & d' & Hr & Hspec).
    { apply Hwf. left. }
    destruct IH as (rs' & Hrs & Hall).
    { intros r' ?. apply Hwf. by right. }
    exists (set_meta m' r :: rs'). simpl. rewrite Hr, Hrs. split; [done|].
    constructor; [|done]. by exists m', d'.
Qed.

(** C9: the normalization loop of [render] is idempotent.  On results whose
    reserved key holds a mapping (when present) the loop succeeds; after it,
    every result has metadata with the reserved key, under it the entries it
    had, unchanged, and an entry None for each other column of the list; the
    other keys of the metadata and the other fields of the result are
    untouched; and running the loop again on its output returns that output
    unchanged. *)
Theorem normalization_idempotent (custom_columns : list string)
    (validation_results : list ExpectationValidationResult) :
  well_typed validation_results = true →
  ∃ normalized,
    normalize custom_columns validation_results = Ok normalized
    ∧ normalize custom_columns normalized = Ok normalized
    ∧ Forall2
        (λ r r', ∃ m' d',
           r' = set_meta m' r
           ∧ meta (expectation_config r') = Some m'
           ∧ expectation_type (expectation_config r')
             = expectation_type (expectation_config r)
           ∧ kwargs (expectation_config r') = kwargs (expectation_config r)
           ∧ success r' = success r
           ∧ result r' = result r
           ∧ m' !! _custom_property_columns_key = Some (VDict d')
           ∧ (∀ k, k ≠ _custom_property_columns_key →
                   m' !! k = default ∅ (meta (expectation_config r)) !! k)
           ∧ ∀ k, d' !! k =
                  match declared_paths r !! k with
                  | Some v => Some v
                  | None => if bool_decide (k ∈ custom_columns)
                            then Some VNone else None
                  end)
        validation_results normalized.
Proof.
  intros Hwf. pose proof (well_typed_elem_of _ Hwf) as Hwf'. clear Hwf. rename Hwf' into Hwf.
  destruct (normalize_spec custom_columns _ Hwf) as (normalized & Hn & Hall).
  exists normalized. split_and!; [done|by eapply normalize_idempotent|].
  eapply Forall2_impl; [exact Hall|].
  intros r r' (m' & d' & -> & Hkey & Hother & Hcolumns).
  exists m', d'. split_and!; done.
Qed.

(** ** Row generation *)

Section RowGenerator.

Variable get_renderer_impl : Registry.
Variable _missing_content_block_fn :
  ExpectationConfiguration → option (gmap string value) → call (list value).
Variable _diagnostic_status_icon_renderer :
  ExpectationValidationResult → call value.

Local Abbreviation generate :=
  (row_generator_fn get_renderer_impl _diagnostic_status_icon_renderer).
Local Abbreviation icon_call :=
  (status_icon_call get_renderer_impl _diagnostic_status_icon_renderer).
Local Abbreviation statement_call := (unexpected_statement_call get_renderer_impl).
Local Abbreviation table_call := (unexpected_table_call get_renderer_impl).
Local Abbreviation observed_call := (observed_value_call get_renderer_impl).

(** The exceptions that abort a row: loading the evaluation parameters,
    the prescriptive renderer and the status icon renderer. *)
Lemma row_generator_fn_load_raises ty fn result rc kw r :
  load_evaluation_parameters rc kw = Raise r →
  generate ty fn result rc kw = (Raise r, []).
Proof. intros H. unfold row_generator_fn, mbind, logged_bind, quiet. by rewrite H. Qed.

Lemma row_generator_fn_prescriptive_raises ty fn result rc kw rc' e :
  load_evaluation_parameters rc kw = Ok rc' →
  fn (expectation_config result) rc' = Raises e →
  generate ty fn result rc kw = (Raise (Uncaught e), []).
Proof.
  intros H1 H2. unfold row_generator_fn, mbind, logged_bind, quiet.
  rewrite H1. simpl. by rewrite H2.
Qed.

Lemma row_generator_fn_status_raises ty fn result rc kw rc' cell e :
  load_evaluation_parameters rc kw = Ok rc' →
  fn (expectation_config result) rc' = Returns cell →
  icon_call ty result = Raises e →
  generate ty fn result rc kw = (Raise (Uncaught e), []).
Proof.
  intros H1 H2 H3. unfold row_generator_fn, mbind, logged_bind, quiet.
  rewrite H1. simpl. rewrite H2. simpl. by rewrite H3.
Qed.

(** Past these three steps the three guarded renderer calls always
    complete, and the row is assembled once the custom property values
    are resolved. *)
Lemma row_generator_fn_assembles ty fn result rc kw rc' cell icon :
  load_evaluation_parameters rc kw = Ok rc' →
  fn (expectation_config result) rc' = Returns cell →
  icon_call ty result = Returns icon →
  generate ty fn result rc kw =
    let us := try_logging [] (statement_call ty result) in
    let ut := try_logging VNone (table_call ty result) in
    let ov := try_logging [VStr "--"] (observed_call ty result) in
    (customs ← custom_property_values (expectation_config result);
     Ok [base_row [icon] (merge_unexpected cell us.1 ut.1) ov.1 ++ customs],
     us.2 ++ ut.2 ++ ov.2).
Proof.
  intros H1 H2 H3. unfold row_generator_fn, mbind, logged_bind, quiet, recovered.
  rewrite H1. simpl. rewrite H2. simpl. rewrite H3. simpl.
  destruct (custom_property_values (expectation_config result)); simpl;
    by rewrite app_nil_r.
Qed.

End RowGenerator.

(** ** Custom property values *)

Lemma for_each_collect {A B} (f : A → completion B) xs acc out :
  for_each (λ acc x, cell ← f x; Ok (acc ++ [cell])) xs acc = Ok out ↔
  ∃ cells, out = acc ++ cells ∧ Forall2 (λ x cell, f x = Ok cell) xs cells.
Proof.
  revert acc out. induction xs as [|x xs IH]; intros acc out; simpl.
  - split.
    + intros [= <-]. exists []. by rewrite app_nil_r.
    + intros (cells & -> & ->%Forall2_nil_inv_l). by rewrite app_nil_r.
  - split.
    + intros (acc' & (cell & Hx & [= <-])%bind_Ok & Hrest)%bind_Ok.
      apply IH in Hrest as (cells & -> & Hall).
      exists (cell :: cells). rewrite <-app_assoc. split; [done|by constructor].
    + intros (cells & -> & (cell & cells' & Hx & Hall & ->)%Forall2_cons_inv_l).
      rewrite Hx. simpl. apply IH. exists cells'. by rewrite <-app_assoc.
Qed.

(** The custom property values of a configuration whose reserved key holds
    the mapping [d]: one cell per key of [d], in sorted key order. *)
Lemma custom_property_values_Ok expectation m d cells :
  meta expectation = Some m →
  m !! _custom_property_columns_key = Some (VDict d) →
  custom_property_values expectation = Ok cells ↔
  Forall2 (λ key cell, custom_property_cell m d key = Ok cell)
          (sorted (dict_keys d)) cells.
Proof.
  intros Hm Hd. unfold custom_property_values. rewrite Hm, Hd. simpl.
  rewrite for_each_collect. split.
  - by intros (cells' & -> & ?).
  - intros ?. by exists cells.
Qed.

Lemma custom_property_values_length expectation m d cells :
  meta expectation = Some m →
  m !! _custom_property_columns_key = Some (VDict d) →
  custom_property_values expectation = Ok cells →
  length cells = size d.
Proof.
  intros Hm Hd Hc. apply (custom_property_values_Ok _ _ _ _ Hm Hd) in Hc.
  apply Forall2_length in Hc. by rewrite <-Hc, sorted_length, length_dict_keys.
Qed.

Lemma custom_property_values_no_key expectation :
  (∀ m, meta expectation = Some m → m !! _custom_property_columns_key = None) →
  custom_property_values expectation = Ok [].
Proof.
  intros H. unfold custom_property_values.
  destruct (meta expectation) as [m|]; [|done]. by rewrite (H m).
Qed.

(** The cell of one column. *)
Lemma custom_property_cell_None m d key :
  d !! key = Some VNone → custom_property_cell m d key = Ok (VList [VStr "N/A"]).
Proof. intros H. unfold custom_property_cell. simpl. by rewrite H. Qed.

Lemma custom_property_cell_resolved m d key path obj :
  d !! key = Some (VStr path) → resolve_path m path = Ok obj →
  custom_property_cell m d key = Ok (VList [obj]).
Proof. intros H Hp. unfold custom_property_cell. simpl. rewrite H. simpl. by rewrite Hp. Qed.

Lemma custom_property_cell_missing m d key path k :
  d !! key = Some (VStr path) → resolve_path m path = Raise (KeyError k) →
  custom_property_cell m d key = Ok (VList [VStr "N/A"]).
Proof. intros H Hp. unfold custom_property_cell. simpl. rewrite H. simpl. by rewrite Hp. Qed.

Lemma custom_property_cell_not_subscriptable m d key path :
  d !! key = Some (VStr path) → resolve_path m path = Raise TypeError →
  custom_property_cell m d key = Raise TypeError.
Proof. intros H Hp. unfold custom_property_cell. simpl. rewrite H. simpl. by rewrite Hp. Qed.

(** ** Width of a row *)

Lemma try_logging_observed_length (c : call value) :
  length (try_logging [VStr "--"]
            match c with Returns v => Returns [v] | Raises e => Raises e end).1 = 1.
Proof. by destruct c. Qed.

Lemma observed_value_length reg ty result :
  length (try_logging [VStr "--"] (observed_value_call reg ty result)).1 = 1.
Proof.
  unfold observed_value_call.
  destruct (renderer_diagnostic_observed_value reg ty) as [f|]; [|done].
  apply try_logging_observed_length.
Qed.

Lemma merge_unexpected_eq cell us ut :
  merge_unexpected cell us ut = cell ++ us ++ (if truthy ut then [ut] else []).
Proof.
  unfold merge_unexpected. case_bool_decide as Hus.
  - subst us. simpl. destruct (truthy ut); [done|by rewrite app_nil_r].
  - destruct (truthy ut); [by rewrite <-app_assoc|by rewrite app_nil_r].
Qed.

Lemma base_row_length status_cell cell observed_value :
  cell ≠ [] →
  length (base_row status_cell cell observed_value)
  = length status_cell + 1 + length observed_value.
Proof.
  intros Hne. unfold base_row. case_bool_decide as Hlen.
  - rewrite !length_app. simpl. lia.
  - rewrite !length_app. destruct cell as [|x [|y cell]]; simpl in *; [done|lia|lia].
Qed.

Lemma base_row_length_empty status_cell observed_value :
  length (base_row status_cell [] observed_value)
  = length status_cell + length observed_value.
Proof. unfold base_row. simpl. by rewrite length_app. Qed.

(** A row is returned exactly when the evaluation parameters load, the
    prescriptive and the status icon renderers return and the custom property
    values resolve; it is then the only row of the returned table. *)
Lemma row_generator_fn_Ok reg icon_default ty fn result rc kw rows log :
  row_generator_fn reg icon_default ty fn result rc kw = (Ok rows, log) ↔
  ∃ rc' cell icon customs,
    load_evaluation_parameters rc kw = Ok rc'
    ∧ fn (expectation_config result) rc' = Returns cell
    ∧ status_icon_call reg icon_default ty result = Returns icon
    ∧ custom_property_values (expectation_config result) = Ok customs
    ∧ rows = [base_row [icon]
                (merge_unexpected cell
                   (try_logging [] (unexpected_statement_call reg ty result)).1
                   (try_logging VNone (unexpected_table_call reg ty result)).1)
                (try_logging [VStr "--"] (observed_value_call reg ty result)).1
              ++ customs]
    ∧ log = (try_logging [] (unexpected_statement_call reg ty result)).2
            ++ (try_logging VNone (unexpected_table_call reg ty result)).2
            ++ (try_logging [VStr "--"] (observed_value_call reg ty result)).2.
Proof.
  split.
  - intros Hgen.
    destruct (load_evaluation_parameters rc kw) as [rc'|r] eqn:Hload.
    2: { by rewrite (row_generator_fn_load_raises _ _ _ _ _ _ _ _ Hload) in Hgen. }
    destruct (fn (expectation_config result) rc') as [cell|e] eqn:Hfn.
    2: { by rewrite (row_generator_fn_prescriptive_raises _ _ _ _ _ _ _ _ _ Hload Hfn)
           in Hgen. }
    destruct (status_icon_call reg icon_default ty result) as [icon|e] eqn:Hicon.
    2: { by rewrite (row_generator_fn_status_raises _ _ _ _ _ _ _ _ _ _ Hload Hfn Hicon)
           in Hgen. }
    rewrite (row_generator_fn_assembles _ _ _ _ _ _ _ _ _ _ Hload Hfn Hicon) in Hgen.
    simpl in Hgen.
    destruct (custom_property_values (expectation_config result)) as [customs|r];
      simpl in Hgen; [|done].
    injection Hgen as <- <-. by exists rc', cell, icon, customs.
  - intros (rc' & cell & icon & customs & Hload & Hfn & Hicon & Hcustoms & -> & ->).
    rewrite (row_generator_fn_assembles _ _ _ _ _ _ _ _ _ _ Hload Hfn Hicon).
    simpl. by rewrite Hcustoms.
Qed.

Lemma declared_paths_declares r k : is_Some (declared_paths r !! k) ↔ declares r k.
Proof.
  unfold declared_paths, declares. split.
  - destruct (meta (expectation_config r)) as [m|]; [|by intros [? ?]].
    destruct (m !! _custom_property_columns_key) as [props|] eqn:Hp; [|by intros [? ?]].
    destruct props as [| | | | |d|]; try by intros [? ?].
    intros ?. by exists m, d.
  - intros (m & d & -> & -> & ?). done.
Qed.

Lemma _get_custom_columns_well_typed validation_results custom_columns :
  _get_custom_columns validation_results = Ok custom_columns →
  ∀ r, r ∈ validation_results → properties_mapping r = true.
Proof.
  rewrite _get_custom_columns_unfold.
  intros (cols & Hloop & _)%bind_Ok. clear custom_columns. revert Hloop.
  generalize (@nil string). induction validation_results as [|r rs IH];
    intros acc Hloop r' Hin; [by apply elem_of_nil in Hin|].
  simpl in Hloop. apply bind_Ok in Hloop as (acc' & Hstep & Hrest).
  apply elem_of_cons in Hin as [->|Hin]; [|by eapply IH].
  unfold discover_step in Hstep. apply bind_Ok in Hstep as (keys & Hkeys & _).
  unfold declared_columns in Hkeys. unfold properties_mapping.
  destruct (meta (expectation_config r)) as [m|]; [|done].
  destruct (m !! _custom_property_columns_key) as [props|]; [|done].
  by destruct props.
Qed.

(** After normalization every result has exactly the discovered columns
    under the reserved key. *)
Lemma normalized_columns validation_results custom_columns normalized r' :
  _get_custom_columns validation_results = Ok custom_columns →
  normalize custom_columns validation_results = Ok normalized →
  r' ∈ normalized →
  ∃ m' d', meta (expectation_config r') = Some m'
           ∧ m' !! _custom_property_columns_key = Some (VDict d')
           ∧ (∀ k, is_Some (d' !! k) ↔ k ∈ custom_columns)
           ∧ size d' = length custom_columns.
Proof.
  intros Hcols Hnorm Hin.
  pose proof (_get_custom_columns_well_typed _ _ Hcols) as Hwf.
  destruct (_get_custom_columns_spec _ Hwf) as (cols & Hcols' & _ & Hnd & Hel).
  rewrite Hcols in Hcols'. injection Hcols' as <-.
  destruct (normalize_spec custom_columns _ Hwf) as (normalized' & Hnorm' & Hall).
  rewrite Hnorm in Hnorm'. injection Hnorm' as <-.
  apply list_elem_of_lookup in Hin as [i Hi].
  destruct (Forall2_lookup_r _ _ _ _ _ Hall Hi) as (r & Hr & m' & d' & -> & Hm' & _ & Hd').
  assert (∀ k, is_Some (d' !! k) ↔ k ∈ custom_columns) as Hdom.
  { intros k. rewrite Hd'. split.
    - destruct (declared_paths r !! k) as [v|] eqn:Hk.
      + intros _. apply Hel. exists r. split; [by eapply list_elem_of_lookup_2|].
        apply declared_paths_declares. by rewrite Hk.
      + case_bool_decide; [done|by intros [? ?]].
    - intros Hk. destruct (declared_paths r !! k); [done|].
      by rewrite bool_decide_eq_true_2. }
  exists m', d'. split_and!; [done..|].
  rewrite <-length_dict_keys. apply Permutation_length, NoDup_Permutation;
    [apply NoDup_dict_keys|done|].
  intros k. by rewrite elem_of_dict_keys.
Qed.

(** C1, as amended: on results whose reserved key holds a mapping, discovery
    and normalization succeed, and every row that the row generator returns
    for a normalized result is the only row of its table and has
    [3 + |custom_columns|] cells when its merged description (the fragments
    of the prescriptive renderer, then the unexpected statement, then the
    unexpected table) is not empty. *)
Theorem row_width_after_normalization
    (reg : Registry)
    (missing : ExpectationConfiguration → option (gmap string value) → call (list value))
    (icon_default : ExpectationValidationResult → call value)
    (validation_results : list ExpectationValidationResult) :
  well_typed validation_results = true →
  ∃ custom_columns normalized,
    _get_custom_columns validation_results = Ok custom_columns
    ∧ normalize custom_columns validation_results = Ok normalized
    ∧ ∀ r' ty rc kw rows log,
        r' ∈ normalized →
        _get_content_block_fn reg missing icon_default ty r' rc kw = (Ok rows, log) →
        (∀ rc' cell,
           load_evaluation_parameters rc kw = Ok rc' →
           expectation_string_fn reg missing ty (expectation_config r') rc'
           = Returns cell →
           cell ++ (try_logging [] (unexpected_statement_call reg ty r')).1
                ++ (if truthy (try_logging VNone (unexpected_table_call reg ty r')).1
                    then [(try_logging VNone (unexpected_table_call reg ty r')).1]
                    else []) ≠ []) →
        ∃ row, rows = [row] ∧ length row = 3 + length custom_columns.
Proof.
  intros Hwf. pose proof (well_typed_elem_of _ Hwf) as Hwf'. clear Hwf. rename Hwf' into Hwf.
  destruct (_get_custom_columns_spec _ Hwf) as (cols & Hcols & _).
  destruct (normalize_spec cols _ Hwf) as (normalized & Hnorm & _).
  exists cols, normalized. split_and!; [done..|].
  intros r' ty rc kw rows log Hin Hgen Hne.
  apply row_generator_fn_Ok in Hgen
    as (rc' & cell & icon & customs & Hload & Hfn & Hicon & Hcustoms & -> & _).
  destruct (normalized_columns _ _ _ _ Hcols Hnorm Hin) as (m' & d' & Hm' & Hd' & _ & Hsize).
  eexists. split; [done|].
  rewrite length_app, (custom_property_values_length _ _ _ _ Hm' Hd' Hcustoms), Hsize.
  rewrite base_row_length, observed_value_length; [simpl; lia|].
  rewrite merge_unexpected_eq. exact (Hne _ _ Hload Hfn).
Qed.

Lemma get_custom_columns_sorted_set_witness :
  well_typed [Sample.plain; Sample.with_columns] = true
  ∧ _get_custom_columns [Sample.with_columns; Sample.plain]
    = _get_custom_columns [Sample.plain; Sample.with_columns].
Proof.
  assert (well_typed [Sample.plain; Sample.with_columns] = true) as Hwf
    by (vm_compute; reflexivity).
  split; [exact Hwf|].
  destruct (get_custom_columns_sorted_set _ Hwf) as (cols & Hcols & _ & _ & _ & Hperm & _).
  rewrite Hcols. apply Hperm. apply Permutation_swap.
Defined.

Lemma normalization_idempotent_witness :
  well_typed [Sample.plain; Sample.with_columns] = true
  ∧ ∃ normalized r' m' d',
      normalize ["W"; "X"] [Sample.plain; Sample.with_columns] = Ok normalized
      ∧ normalize ["W"; "X"] normalized = Ok normalized
      ∧ normalized !! 0 = Some r'
      ∧ meta (expectation_config r') = Some m'
      ∧ m' !! _custom_property_columns_key = Some (VDict d')
      ∧ d' !! "W" = Some VNone.
Proof.
  assert (well_typed [Sample.plain; Sample.with_columns] = true) as Hwf
    by (vm_compute; reflexivity).
  split; [exact Hwf|].
  destruct (normalization_idempotent ["W"; "X"] _ Hwf) as (normalized & H1 & H2 & Hall).
  destruct (Forall2_lookup_l _ _ _ 0 Sample.plain Hall eq_refl)
    as (r' & Hr' & m' & d' & _ & Hmeta & _ & _ & _ & _ & Hkey & _ & Hcolumns).
  exists normalized, r', m', d'.
  split_and!; [exact H1|exact H2|exact Hr'|exact Hmeta|exact Hkey|].
  rewrite (Hcolumns "W"). vm_compute. reflexivity.
Defined.

(** C1 fails as stated: with a prescriptive renderer that returns an empty
    list, no unexpected statement and no unexpected table, the description
    contributes no cell and the row of a result without custom columns has two
    cells. *)
Lemma row_width_counterexample :
  ¬ (∀ reg missing icon_default validation_results custom_columns normalized
       r' ty rc kw rows log row,
       _get_custom_columns validation_results = Ok custom_columns →
       normalize custom_columns validation_results = Ok normalized →
       r' ∈ normalized →
       _get_content_block_fn reg missing icon_default ty r' rc kw = (Ok rows, log) →
       row ∈ rows →
       length row = 3 + length custom_columns).
Proof.
  intros H.
  specialize (H Sample.empty_description Sample.missing_content_block_fn
                Sample.status_icon_renderer [Sample.plain] []
                [set_meta {[ _custom_property_columns_key := VDict ∅ ]} Sample.plain]
                (set_meta {[ _custom_property_columns_key := VDict ∅ ]} Sample.plain)
                "T1" None ∅
                [[VContent "success"; VStr "--"]] []
                [VContent "success"; VStr "--"]).
  discriminate H; try (vm_compute; reflexivity); by left.
Qed.

Lemma row_width_after_normalization_witness :
  let columns : gmap string value :=
    <[ "X" := VNone ]> (<[ "Y" := VNone ]> {[ "Z" := VNone ]}) in
  let normalized_plain :=
    set_meta {[ _custom_property_columns_key := VDict columns ]} Sample.plain in
  well_typed [Sample.plain; Sample.with_columns] = true
  ∧ _get_custom_columns [Sample.plain; Sample.with_columns] = Ok ["X"; "Y"; "Z"]
  ∧ expectation_string_fn Fixture.statement_without_description
      Sample.missing_content_block_fn "T1" (expectation_config normalized_plain) None
    = Returns []
  ∧ ∃ row,
      _get_content_block_fn Fixture.statement_without_description
        Sample.missing_content_block_fn Sample.status_icon_renderer "T1"
        normalized_plain None ∅ = (Ok [row], [])
      ∧ length row = 3 + length ["X"; "Y"; "Z"].
Proof.
  intros columns normalized_plain.
  assert (well_typed [Sample.plain; Sample.with_columns] = true) as Hwf
    by (vm_compute; reflexivity).
  assert (_get_custom_columns [Sample.plain; Sample.with_columns] = Ok ["X"; "Y"; "Z"])
    as Hdiscovered by (vm_compute; reflexivity).
  split; [exact Hwf|]. split; [exact Hdiscovered|]. split; [reflexivity|].
  destruct (row_width_after_normalization Fixture.statement_without_description
              Sample.missing_content_block_fn Sample.status_icon_renderer _ Hwf)
    as (cols & normalized & Hcols & Hnorm & Hrows).
  rewrite Hdiscovered in Hcols. injection Hcols as <-.
  assert (normalize ["X"; "Y"; "Z"] [Sample.plain; Sample.with_columns]
          = Ok [normalized_plain; Sample.with_columns]) as Hnormalized
    by (vm_compute; reflexivity).
  rewrite Hnormalized in Hnorm. injection Hnorm as <-.
  assert (_get_content_block_fn Fixture.statement_without_description
            Sample.missing_content_block_fn Sample.status_icon_renderer "T1"
            normalized_plain None ∅
          = (Ok [[VContent "success"; VContent "statement"; VStr "--";
                  VList [VStr "N/A"]; VList [VStr "N/A"]; VList [VStr "N/A"]]], []))
    as Hgen by (vm_compute; reflexivity).
  destruct (Hrows normalized_plain "T1" None ∅ _ _ (list_elem_of_here _ _) Hgen)
    as (row & Hrow & Hlen).
  { intros rc' cell _ Hcell. vm_compute in Hcell. injection Hcell as <-.
    simpl. discriminate. }
  exists row. split; [|exact Hlen]. rewrite Hgen. by rewrite Hrow.
Defined.

(** ** The messages logged *)

Lemma string_app_assoc (s1 s2 s3 : string) : (s1 +:+ s2) +:+ s3 = s1 +:+ s2 +:+ s3.
Proof.
  induction s1 as [|c s1 IH]; [reflexivity|].
  change (String c ((s1 +:+ s2) +:+ s3) = String c (s1 +:+ s2 +:+ s3)).
  by rewrite IH.
Qed.

Lemma occurs_in_app_r sub pre s : occurs_in sub s → occurs_in sub (pre +:+ s).
Proof.
  intros (pre' & post & ->). exists (pre +:+ pre'), post.
  by rewrite string_app_assoc.
Qed.

Lemma occurs_in_here sub post : occurs_in sub (sub +:+ post).
Proof. by exists EmptyString, post. Qed.

(** The message names the type of the exception and holds its text and its
    traceback. *)
Lemma exception_message_occurs e :
  occurs_in (exc_name e) (exception_message e)
  ∧ occurs_in (exc_str e) (exception_message e)
  ∧ occurs_in (exc_traceback e) (exception_message e).
Proof.
  unfold exception_message. split_and!.
  - apply occurs_in_app_r, occurs_in_here.
  - do 4 apply occurs_in_app_r. apply occurs_in_here.
  - do 8 apply occurs_in_app_r. apply occurs_in_here.
Qed.

(** ** The guarded renderer calls *)

Lemma try_logging_Returns {A} (previous a : A) :
  try_logging previous (Returns a) = (a, []).
Proof. done. Qed.

Lemma try_logging_Raises {A} (previous : A) e :
  try_logging previous (Raises e) = (previous, [mkLogRecord ERROR (exception_message e)]).
Proof. done. Qed.

Lemma unexpected_statement_call_Some reg ty f result :
  renderer_diagnostic_unexpected_statement reg ty = Some f →
  unexpected_statement_call reg ty result = f result.
Proof. intros H. unfold unexpected_statement_call. by rewrite H. Qed.

Lemma unexpected_table_call_Some reg ty f result :
  renderer_diagnostic_unexpected_table reg ty = Some f →
  unexpected_table_call reg ty result = f result.
Proof. intros H. unfold unexpected_table_call. by rewrite H. Qed.

Lemma observed_value_call_Raises reg ty f result e :
  renderer_diagnostic_observed_value reg ty = Some f → f result = Raises e →
  observed_value_call reg ty result = Raises e.
Proof. intros H He. unfold observed_value_call. by rewrite H, He. Qed.

Lemma observed_value_call_Returns reg ty f result v :
  renderer_diagnostic_observed_value reg ty = Some f → f result = Returns v →
  observed_value_call reg ty result = Returns [v].
Proof. intros H Hv. unfold observed_value_call. by rewrite H, Hv. Qed.

(** The output of the row generator for a result only depends on the
    registry through the renderer calls at that result. *)
Lemma row_generator_fn_local reg reg' icon_default ty fn r rc kw :
  same_calls_at reg reg' icon_default ty r →
  row_generator_fn reg icon_default ty fn r rc kw
  = row_generator_fn reg' icon_default ty fn r rc kw.
Proof.
  intros (Hicon & Hus & Hut & Hov). unfold row_generator_fn.
  by rewrite Hicon, Hus, Hut, Hov.
Qed.

(** X16: when the evaluation parameters load, the prescriptive and the status
    icon renderers return and the custom property values resolve, a renderer
    of one of the types unexpected_statement, unexpected_table and
    observed_value that raises does not prevent the row: the exception is
    caught, one record of level ERROR is logged, whose message holds the type
    name, the text and the traceback of the exception, the contribution of the
    renderer is its default (no fragment, no table, "--"), and the row is
    returned with all its cells.  The row generated for another result does
    not depend on what the renderers do at this one. *)
Theorem diagnostic_failure_degrades
    (reg : Registry) (icon_default : ExpectationValidationResult → call value)
    (ty : string)
    (fn : ExpectationConfiguration → option (gmap string value) → call (list value))
    (result : ExpectationValidationResult)
    (rc rc' : option (gmap string value)) (kw : gmap string value)
    (cell customs : list value) (icon : value) (e : Exception) :
  load_evaluation_parameters rc kw = Ok rc' →
  fn (expectation_config result) rc' = Returns cell →
  status_icon_call reg icon_default ty result = Returns icon →
  custom_property_values (expectation_config result) = Ok customs →
  let us := try_logging [] (unexpected_statement_call reg ty result) in
  let ut := try_logging VNone (unexpected_table_call reg ty result) in
  let ov := try_logging [VStr "--"] (observed_value_call reg ty result) in
  let entry := mkLogRecord ERROR (exception_message e) in
  (∀ f, renderer_diagnostic_unexpected_statement reg ty = Some f →
        f result = Raises e →
        row_generator_fn reg icon_default ty fn result rc kw
        = (Ok [base_row [icon] (merge_unexpected cell [] ut.1) ov.1 ++ customs],
           [entry] ++ ut.2 ++ ov.2))
  ∧ (∀ f, renderer_diagnostic_unexpected_table reg ty = Some f →
          f result = Raises e →
          row_generator_fn reg icon_default ty fn result rc kw
          = (Ok [base_row [icon] (merge_unexpected cell us.1 VNone) ov.1 ++ customs],
             us.2 ++ [entry] ++ ov.2))
  ∧ (∀ f, renderer_diagnostic_observed_value reg ty = Some f →
          f result = Raises e →
          row_generator_fn reg icon_default ty fn result rc kw
          = (Ok [base_row [icon] (merge_unexpected cell us.1 ut.1) [VStr "--"] ++ customs],
             us.2 ++ ut.2 ++ [entry]))
  ∧ (levelname entry = ERROR
     ∧ occurs_in (exc_name e) (message entry)
     ∧ occurs_in (exc_str e) (message entry)
     ∧ occurs_in (exc_traceback e) (message entry))
  ∧ (∀ reg' other rc0 kw0,
       same_calls_at reg reg' icon_default ty other →
       row_generator_fn reg' icon_default ty fn other rc0 kw0
       = row_generator_fn reg icon_default ty fn other rc0 kw0).
Proof.
  intros Hload Hfn Hicon Hcustoms us ut ov entry.
  pose proof (row_generator_fn_assembles _ icon_default _ _ _ _ _ _ _ _ Hload Hfn Hicon)
    as Hrow.
  rewrite Hcustoms in Hrow. simpl in Hrow.
  split_and!.
  - intros f Hf He. rewrite Hrow.
    by rewrite (unexpected_statement_call_Some _ _ _ _ Hf), He, try_logging_Raises.
  - intros f Hf He. rewrite Hrow.
    by rewrite (unexpected_table_call_Some _ _ _ _ Hf), He, try_logging_Raises.
  - intros f Hf He. rewrite Hrow.
    by rewrite (observed_value_call_Raises _ _ _ _ _ Hf He), try_logging_Raises.
  - done.
  - apply exception_message_occurs.
  - apply exception_message_occurs.
  - apply exception_message_occurs.
  - intros reg' other rc0 kw0 Hsame. symmetry. by apply row_generator_fn_local.
Qed.

Lemma diagnostic_failure_degrades_witness :
  let result := Sample.with_columns in
  let fn := expectation_string_fn Sample.failing_unexpected_statement
              Sample.missing_content_block_fn "T2" in
  load_evaluation_parameters None ∅ = Ok None
  ∧ fn (expectation_config result) None = Returns [VContent "description"]
  ∧ status_icon_call Sample.failing_unexpected_statement Sample.status_icon_renderer
      "T2" result = Returns (VContent "icon")
  ∧ custom_property_values (expectation_config result)
    = Ok [VList [VInt 5]; VList [VStr "N/A"]; VList [VStr "N/A"]]
  ∧ row_generator_fn Sample.failing_unexpected_statement Sample.status_icon_renderer
      "T2" fn result None ∅
    = (Ok [[VContent "icon"; VList [VContent "description"; VContent "table"]; VInt 7;
            VList [VInt 5]; VList [VStr "N/A"]; VList [VStr "N/A"]]],
       [mkLogRecord ERROR (exception_message Sample.boom)]).
Proof.
  intros result fn.
  assert (load_evaluation_parameters None ∅ = Ok None) as H1 by reflexivity.
  assert (fn (expectation_config result) None = Returns [VContent "description"])
    as H2 by reflexivity.
  assert (status_icon_call Sample.failing_unexpected_statement
            Sample.status_icon_renderer "T2" result = Returns (VContent "icon"))
    as H3 by reflexivity.
  assert (custom_property_values (expectation_config result)
          = Ok [VList [VInt 5]; VList [VStr "N/A"]; VList [VStr "N/A"]])
    as H4 by (vm_compute; reflexivity).
  split_and!; [exact H1|exact H2|exact H3|exact H4|].
  destruct (diagnostic_failure_degrades Sample.failing_unexpected_statement
              Sample.status_icon_renderer "T2" fn result None None ∅ _ _ _
              Sample.boom H1 H2 H3 H4) as (Hus & _).
  rewrite (Hus (λ _, Raises Sample.boom) eq_refl eq_refl). reflexivity.
Defined.

(** C2: the row is not produced in full whatever the custom columns: with
    an unexpected_statement renderer that raises, and the metadata
    [{a: {b: 5}}] with the custom column [W: "a.b.c"], the exception of the
    renderer is caught and logged at level ERROR, and then the walk of the path
    subscripts the number 5: [TypeError] leaves the row generator and no row is
    returned. *)
Theorem diagnostic_failure_then_path_raises :
  unexpected_statement_call Sample.failing_unexpected_statement "T2"
    Sample.through_number = Raises Sample.boom
  ∧ _get_content_block_fn Sample.failing_unexpected_statement
      Sample.missing_content_block_fn Sample.status_icon_renderer "T2"
      Sample.through_number None ∅
    = (Raise TypeError, [mkLogRecord ERROR (exception_message Sample.boom)]).
Proof. split; vm_compute; reflexivity. Qed.

(** ** Exceptions that leave the row generator *)

Lemma for_each_Raise {A S} (body : S → A → completion S) xs acc r :
  for_each body xs acc = Raise r → ∃ x acc', x ∈ xs ∧ body acc' x = Raise r.
Proof.
  revert acc. induction xs as [|x xs IH]; intros acc; simpl; [done|].
  destruct (body acc x) as [acc'|r'] eqn:Hx; simpl.
  - intros (y & acc'' & ? & ?)%IH. exists y, acc''. split; [by right|done].
  - intros [= ->]. exists x, acc. split; [left|done].
Qed.

Lemma getitem_Raise obj key r :
  getitem obj key = Raise r → r = KeyError key ∨ r = TypeError.
Proof.
  destruct obj as [| | | | |d|]; simpl; try (intros [= <-]; by right).
  destruct (d !! key); [done|]. intros [= <-]. by left.
Qed.

Lemma resolve_path_Raise m path r :
  resolve_path m path = Raise r → (∃ key, r = KeyError key) ∨ r = TypeError.
Proof.
  unfold resolve_path. intros (key & obj & _ & [->| ->]%getitem_Raise)%for_each_Raise;
    eauto.
Qed.

Lemma custom_property_cell_Raise m d key r :
  custom_property_cell m d key = Raise r → ∀ e, r ≠ Uncaught e.
Proof.
  unfold custom_property_cell. simpl.
  destruct (d !! key) as [v|]; simpl; [|by intros [= <-]].
  destruct v as [| | |path| | |]; try by intros [= <-].
  destruct (resolve_path m path) as [obj|r'] eqn:Hp; [done|].
  apply resolve_path_Raise in Hp as [[k ->]| ->]; [done|]. by intros [= <-].
Qed.

(** No exception of a renderer leaves the resolution of the custom
    property values, which calls none. *)
Lemma custom_property_values_Raise expectation r :
  custom_property_values expectation = Raise r → ∀ e, r ≠ Uncaught e.
Proof.
  unfold custom_property_values.
  destruct (meta expectation) as [m|]; [|done].
  destruct (m !! _custom_property_columns_key) as [props|]; [|done].
  destruct props as [| | | | |d|]; simpl; try by intros [= <-].
  intros (key & acc & _ & Hcell)%for_each_Raise.
  destruct (custom_property_cell m d key) as [cell|r'] eqn:Hc; [done|].
  simpl in Hcell. injection Hcell as <-. by eapply custom_property_cell_Raise.
Qed.




(** C4: an exception of the prescriptive renderer is not caught by the row
    generator: it leaves it, with no row and no record logged.  The calls of
    the unexpected_statement, unexpected_table and observed_value renderers are
    the only guarded ones: when the prescriptive and the status icon renderers
    return, no exception of a renderer leaves the row generator, whatever the
    three renderers do, while an exception of the status icon renderer leaves
    it like one of the prescriptive renderer. *)
Theorem prescriptive_failure_propagates
    (reg : Registry) (icon_default : ExpectationValidationResult → call value)
    (ty : string)
    (fn : ExpectationConfiguration → option (gmap string value) → call (list value))
    (result : ExpectationValidationResult)
    (rc rc' : option (gmap string value)) (kw : gmap string value) :
  load_evaluation_parameters rc kw = Ok rc' →
  (∀ e, fn (expectation_config result) rc' = Raises e →
        row_generator_fn reg icon_default ty fn result rc kw = (Raise (Uncaught e), []))
  ∧ (∀ cell e, fn (expectation_config result) rc' = Returns cell →
               status_icon_call reg icon_default ty result = Raises e →
               row_generator_fn reg icon_default ty fn result rc kw
               = (Raise (Uncaught e), []))
  ∧ (∀ cell icon e, fn (expectation_config result) rc' = Returns cell →
                    status_icon_call reg icon_default ty result = Returns icon →
                    (row_generator_fn reg icon_default ty fn result rc kw).1
                    ≠ Raise (Uncaught e)).
Proof.
  intros Hload. split_and!.
  - intros e He. by eapply row_generator_fn_prescriptive_raises.
  - intros cell e Hfn He. by eapply row_generator_fn_status_raises.
  - intros cell icon e Hfn Hicon.
    rewrite (row_generator_fn_assembles _ _ _ _ _ _ _ _ _ _ Hload Hfn Hicon). simpl.
    destruct (custom_property_values (expectation_config result)) as [customs|r] eqn:Hc;
      simpl; [done|].
    intros [= ->]. by eapply custom_property_values_Raise.
Qed.

Lemma prescriptive_failure_propagates_witness :
  load_evaluation_parameters None ∅ = Ok None
  ∧ _get_content_block_fn Sample.failing_prescriptive Sample.missing_content_block_fn
      Sample.status_icon_renderer "T1" Sample.plain None ∅
    = (Raise (Uncaught Sample.boom), []).
Proof.
  assert (load_evaluation_parameters None ∅ = Ok None) as H1 by reflexivity.
  split; [exact H1|].
  apply (proj1 (prescriptive_failure_propagates Sample.failing_prescriptive
                  Sample.status_icon_renderer "T1" _ Sample.plain None None ∅ H1)).
  reflexivity.
Defined.

(** C6: a dotted path that goes through a value that is not a mapping does
    not give the cell ["N/A"]: for the metadata [{a: {b: 5}}] and the custom
    column [W: "a.b.c"], the subscript of the number 5 raises [TypeError],
    which the handler for [KeyError] lets through; no custom property value
    and no row are returned. *)
Theorem path_through_number_raises :
  resolve_path (Sample.meta_with {[ "W" := VStr "a.b.c" ]}) "a.b.c" = Raise TypeError
  ∧ custom_property_values (expectation_config Sample.through_number) = Raise TypeError
  ∧ _get_content_block_fn Sample.no_renderer Sample.missing_content_block_fn
      Sample.status_icon_renderer "T2" Sample.through_number None ∅
    = (Raise TypeError, []).
Proof. split_and!; vm_compute; reflexivity. Qed.

(** The three resolutions given as examples: for the metadata [{a: {b: 5}}],
    the column X with path "a.b" yields 5, the column Y with path "a.c" and the
    column Z without a path yield "N/A". *)
Example custom_property_values_with_columns :
  custom_property_values (expectation_config Sample.with_columns)
  = Ok [VList [VInt 5]; VList [VStr "N/A"]; VList [VStr "N/A"]].
Proof. vm_compute. reflexivity. Qed.

(** ** Lookup misses *)

(** C7: for a type without a registered renderer, the inherited
    [_missing_content_block_fn] and [_diagnostic_status_icon_renderer] stand in
    for the prescriptive and the status icon renderers, and no renderer stands
    in for the three others: the unexpected statement is the empty list, the
    unexpected table is None and the observed value is "--", with nothing
    logged.  With all five missing, the row is made of the inherited status
    icon, the inherited description, "--" and the custom property values. *)
Theorem lookup_miss_defaults
    (reg : Registry)
    (missing : ExpectationConfiguration → option (gmap string value) → call (list value))
    (icon_default : ExpectationValidationResult → call value)
    (ty : string) (result : ExpectationValidationResult)
    (rc : option (gmap string value)) (kw : gmap string value) :
  (renderer_prescriptive reg ty = None →
     expectation_string_fn reg missing ty = missing)
  ∧ (renderer_diagnostic_status_icon reg ty = None →
       status_icon_call reg icon_default ty result = icon_default result)
  ∧ (renderer_diagnostic_unexpected_statement reg ty = None →
       try_logging [] (unexpected_statement_call reg ty result) = ([], []))
  ∧ (renderer_diagnostic_unexpected_table reg ty = None →
       try_logging VNone (unexpected_table_call reg ty result) = (VNone, []))
  ∧ (renderer_diagnostic_observed_value reg ty = None →
       try_logging [VStr "--"] (observed_value_call reg ty result) = ([VStr "--"], []))
  ∧ (renderer_prescriptive reg ty = None →
     renderer_diagnostic_status_icon reg ty = None →
     renderer_diagnostic_unexpected_statement reg ty = None →
     renderer_diagnostic_unexpected_table reg ty = None →
     renderer_diagnostic_observed_value reg ty = None →
     ∀ rc' cell icon customs,
       load_evaluation_parameters rc kw = Ok rc' →
       missing (expectation_config result) rc' = Returns cell →
       icon_default result = Returns icon →
       custom_property_values (expectation_config result) = Ok customs →
       _get_content_block_fn reg missing icon_default ty result rc kw
       = (Ok [[icon]
              ++ (if bool_decide (1 < length cell) then [VList cell] else cell)
              ++ [VStr "--"] ++ customs],
          [])).
Proof.
  split_and!.
  - intros H. unfold expectation_string_fn. by rewrite H.
  - intros H. unfold status_icon_call. by rewrite H.
  - intros H. unfold unexpected_statement_call. by rewrite H.
  - intros H. unfold unexpected_table_call. by rewrite H.
  - intros H. unfold observed_value_call. by rewrite H.
  - intros Hp Hi Hus Hut Hov rc' cell icon customs Hload Hcell Hicon Hcustoms.
    unfold _get_content_block_fn.
    rewrite (row_generator_fn_assembles reg icon_default ty _ result rc kw rc' cell icon);
      [|done| |].
    + unfold unexpected_statement_call, unexpected_table_call, observed_value_call.
      rewrite Hus, Hut, Hov, Hcustoms. simpl.
      unfold base_row. rewrite merge_unexpected_eq. simpl. rewrite app_nil_r.
      do 2 f_equal. case_bool_decide; simpl; by rewrite <-?app_assoc.
    + unfold expectation_string_fn. by rewrite Hp.
    + unfold status_icon_call. by rewrite Hi.
Qed.

Lemma lookup_miss_defaults_witness :
  _get_content_block_fn Sample.no_renderer Sample.missing_content_block_fn
    Sample.status_icon_renderer "T2" Sample.with_columns None ∅
  = (Ok [[VContent "failure"; VContent "T2"; VStr "--";
          VList [VInt 5]; VList [VStr "N/A"]; VList [VStr "N/A"]]],
     []).
Proof.
  apply (proj2 (proj2 (proj2 (proj2 (proj2
           (lookup_miss_defaults Sample.no_renderer Sample.missing_content_block_fn
              Sample.status_icon_renderer "T2" Sample.with_columns None ∅)))))
           eq_refl eq_refl eq_refl eq_refl eq_refl None
           [VContent "T2"] (VContent "failure")
           [VList [VInt 5]; VList [VStr "N/A"]; VList [VStr "N/A"]]);
    vm_compute; reflexivity.
Defined.

(** ** Assembly of the row *)

(** C8: the row generator appends the unexpected statement fragments, then
    the unexpected table when there is one, to the fragments of the
    description; the merged description goes into the row as one nested list
    when it has more than one fragment and fragment by fragment otherwise; the
    row is the status cell, the description, the observed value and the custom
    property cells, in this order. *)
Theorem row_assembly_order
    (reg : Registry) (icon_default : ExpectationValidationResult → call value)
    (ty : string)
    (fn : ExpectationConfiguration → option (gmap string value) → call (list value))
    (result : ExpectationValidationResult)
    (rc rc' : option (gmap string value)) (kw : gmap string value)
    (cell customs : list value) (icon : value) :
  load_evaluation_parameters rc kw = Ok rc' →
  fn (expectation_config result) rc' = Returns cell →
  status_icon_call reg icon_default ty result = Returns icon →
  custom_property_values (expectation_config result) = Ok customs →
  let unexpected_statement :=
    (try_logging [] (unexpected_statement_call reg ty result)).1 in
  let unexpected_table :=
    (try_logging VNone (unexpected_table_call reg ty result)).1 in
  let observed_value :=
    (try_logging [VStr "--"] (observed_value_call reg ty result)).1 in
  let merged :=
    cell ++ unexpected_statement
         ++ (if truthy unexpected_table then [unexpected_table] else []) in
  (row_generator_fn reg icon_default ty fn result rc kw).1
  = Ok [[icon]
        ++ (if bool_decide (1 < length merged) then [VList merged] else merged)
        ++ observed_value ++ customs].
Proof.
  intros Hload Hfn Hicon Hcustoms us ut ov merged.
  rewrite (row_generator_fn_assembles _ _ _ _ _ _ _ _ _ _ Hload Hfn Hicon).
  rewrite Hcustoms. simpl. unfold base_row. rewrite merge_unexpected_eq.
  fold us ut ov merged. do 2 f_equal.
  case_bool_decide; by rewrite <-!app_assoc.
Qed.

Lemma row_assembly_order_witness :
  let result := Sample.with_columns in
  let fn := expectation_string_fn Sample.all_renderers
              Sample.missing_content_block_fn "T2" in
  load_evaluation_parameters None ∅ = Ok None
  ∧ fn (expectation_config result) None = Returns [VContent "description"]
  ∧ status_icon_call Sample.all_renderers Sample.status_icon_renderer "T2" result
    = Returns (VContent "icon")
  ∧ custom_property_values (expectation_config result)
    = Ok [VList [VInt 5]; VList [VStr "N/A"]; VList [VStr "N/A"]]
  ∧ (row_generator_fn Sample.all_renderers Sample.status_icon_renderer "T2" fn result
       None ∅).1
    = Ok [[VContent "icon";
           VList [VContent "description"; VContent "statement"; VContent "table"];
           VInt 7; VList [VInt 5]; VList [VStr "N/A"]; VList [VStr "N/A"]]].
Proof.
  intros result fn.
  assert (load_evaluation_parameters None ∅ = Ok None) as H1 by reflexivity.
  assert (fn (expectation_config result) None = Returns [VContent "description"])
    as H2 by reflexivity.
  assert (status_icon_call Sample.all_renderers Sample.status_icon_renderer "T2" result
          = Returns (VContent "icon")) as H3 by reflexivity.
  assert (custom_property_values (expectation_config result)
          = Ok [VList [VInt 5]; VList [VStr "N/A"]; VList [VStr "N/A"]])
    as H4 by (vm_compute; reflexivity).
  split_and!; [exact H1|exact H2|exact H3|exact H4|].
  rewrite (row_assembly_order Sample.all_renderers Sample.status_icon_renderer "T2" fn
             result None None ∅ _ _ _ H1 H2 H3 H4).
  reflexivity.
Defined.

(** ** Styling of the table *)

Lemma add_class_Ok flag styling :
  classes_appendable styling = true →
  add_class flag styling
  = Ok (<[ "classes" := VList (existing_classes styling ++ [VStr flag]) ]> styling).
Proof.
  unfold classes_appendable, add_class, existing_classes.
  destruct (styling !! "classes") as [classes|]; [|done].
  destruct classes as [|b|z|s|l|d|name]; simpl; try done.
  - by intros ->%negb_true_iff.
  - by intros ->%negb_true_iff.
  - by intros ->%negb_true_iff.
  - intros _. by destruct l.
  - by intros ->%negb_true_iff.
Qed.

Lemma header_Ok render_object :
  render_object_well_typed render_object = true →
  ∃ columns,
    match render_object with
    | Some validation_results => _get_custom_columns validation_results
    | None => Ok []
    end = Ok columns.
Proof.
  destruct render_object as [validation_results|]; simpl; [|by exists []].
  intros Hwf. pose proof (well_typed_elem_of _ Hwf) as Hwf'.
  destruct (_get_custom_columns_spec _ Hwf') as (cols & -> & _). by exists cols.
Qed.

(** The styling after [_process_content_block], from the flag received. *)
Lemma _process_content_block_styling super content_block flag render_object :
  render_object_well_typed render_object = true →
  let before := styling (super content_block flag) in
  (flag = Some false → classes_appendable (default ∅ before) = true) →
  ∃ content_block',
    _process_content_block super content_block flag render_object = Ok content_block'
    ∧ styling content_block'
      = if bool_decide (flag = Some false)
        then Some (<[ "classes" := VList (existing_classes (default ∅ before)
                                          ++ [VStr hide_succeeded_class]) ]>
                     (default ∅ before))
        else before.
Proof.
  intros Hwf before Happ. unfold _process_content_block.
  destruct (header_Ok _ Hwf) as (columns & Hcolumns).
  destruct render_object as [validation_results|]; simpl in Hcolumns.
  - rewrite Hcolumns. simpl. fold before.
    destruct flag as [[|]|]; simpl; [by eexists..| |by eexists].
    assert (match before with
            | Some s => if bool_decide (s = ∅) then ∅ else s
            | None => ∅
            end = default ∅ before) as ->.
    { destruct before as [s|]; [|done]. by case_bool_decide. }
    rewrite add_class_Ok by auto. simpl. by eexists.
  - simpl. fold before.
    destruct flag as [[|]|]; simpl; [by eexists..| |by eexists].
    assert (match before with
            | Some s => if bool_decide (s = ∅) then ∅ else s
            | None => ∅
            end = default ∅ before) as ->.
    { destruct before as [s|]; [|done]. by case_bool_decide. }
    rewrite add_class_Ok by auto. simpl. by eexists.
Qed.

Lemma has_failed_evr_all_passed validation_results :
  forallb success validation_results = true →
  has_failed_evr validation_results = Some false.
Proof.
  unfold has_failed_evr. intros H. f_equal.
  induction validation_results as [|r rs IH]; [done|].
  simpl in *. apply andb_true_iff in H as [-> ?]. simpl. auto.
Qed.

Lemma has_failed_evr_one_failed validation_results :
  forallb success validation_results = false →
  has_failed_evr validation_results = Some true.
Proof.
  unfold has_failed_evr. intros H. f_equal.
  induction validation_results as [|r rs IH]; [done|].
  simpl in *. destruct (success r); simpl in *; auto.
Qed.

(** C10: when no validation result of the set has failed, the class
    "hide-succeeded-validations-column-section-target-child" is appended to the
    classes of the styling of the table (it is the only class when the styling
    had none); when a validation result has failed, the styling is left as it
    was. *)
Theorem all_succeeded_styling
    (super : RenderedTableContent → option bool → RenderedTableContent)
    (content_block : RenderedTableContent)
    (validation_results : list ExpectationValidationResult)
    (render_object : option (list ExpectationValidationResult)) :
  render_object_well_typed render_object = true →
  let flag := has_failed_evr validation_results in
  let before := styling (super content_block flag) in
  (forallb success validation_results = true →
   classes_appendable (default ∅ before) = true →
   ∃ content_block',
     _process_content_block super content_block flag render_object = Ok content_block'
     ∧ styling content_block'
       = Some (<[ "classes" := VList (existing_classes (default ∅ before)
                                      ++ [VStr "hide-succeeded-validations-column-section-target-child"]) ]>
                 (default ∅ before)))
  ∧ (forallb success validation_results = false →
     ∃ content_block',
       _process_content_block super content_block flag render_object = Ok content_block'
       ∧ styling content_block' = before).
Proof.
  intros Hwf flag before. subst before flag. split.
  - intros Hpassed. rewrite (has_failed_evr_all_passed _ Hpassed). intros Happ.
    destruct (_process_content_block_styling super content_block (Some false)
                render_object Hwf) as (cb' & Hcb' & Hstyling); [done|].
    exists cb'. split; [exact Hcb'|]. by rewrite Hstyling.
  - intros Hfailed. rewrite (has_failed_evr_one_failed _ Hfailed).
    destruct (_process_content_block_styling super content_block (Some true)
                render_object Hwf) as (cb' & Hcb' & Hstyling); [done|].
    exists cb'. split; [exact Hcb'|]. by rewrite Hstyling.
Qed.

Lemma all_succeeded_styling_witness :
  let table := Sample.styled (Some {[ "classes" := VList [VStr "table"] ]}) in
  render_object_well_typed (Some [Sample.plain]) = true
  ∧ forallb success [Sample.plain] = true
  ∧ classes_appendable (default ∅ (styling table)) = true
  ∧ ∃ content_block',
      _process_content_block (λ content_block _, content_block) table
        (has_failed_evr [Sample.plain]) (Some [Sample.plain]) = Ok content_block'
      ∧ styling content_block'
        = Some {[ "classes" := VList [VStr "table"; VStr "hide-succeeded-validations-column-section-target-child"] ]}.
Proof.
  intros table.
  assert (render_object_well_typed (Some [Sample.plain]) = true) as H1 by reflexivity.
  assert (forallb success [Sample.plain] = true) as H2 by reflexivity.
  assert (classes_appendable (default ∅ (styling table)) = true) as H3
    by (vm_compute; reflexivity).
  split_and!; [exact H1|exact H2|exact H3|].
  destruct (proj1 (all_succeeded_styling (λ content_block _, content_block) table
                     [Sample.plain] (Some [Sample.plain]) H1) H2 H3)
    as (cb' & Hcb' & Hstyling).
  exists cb'. split; [exact Hcb'|]. rewrite Hstyling. vm_compute. reflexivity.
Defined.

(** ** [render] as a whole *)

Lemma render_Ok super_render validation_results kw normalized content_block :
  render super_render validation_results kw = Ok (normalized, content_block) ↔
  ∃ custom_columns,
    _get_custom_columns validation_results = Ok custom_columns
    ∧ normalize custom_columns validation_results = Ok normalized
    ∧ super_render normalized kw = Ok content_block.
Proof.
  unfold render. split.
  - intros (cols & Hcols & (vr' & Hnorm & (cb & Hcb & [= <- <-])%bind_Ok)%bind_Ok)%bind_Ok.
    by exists cols.
  - intros (cols & Hcols & Hnorm & Hcb).
    rewrite Hcols. simpl. rewrite Hnorm. simpl. by rewrite Hcb.
Qed.

(** Discovery on the normalized results, as done for the header row, finds
    the columns that were discovered before normalization. *)
Lemma _get_custom_columns_normalized validation_results custom_columns normalized :
  _get_custom_columns validation_results = Ok custom_columns →
  normalize custom_columns validation_results = Ok normalized →
  _get_custom_columns normalized = Ok custom_columns.
Proof.
  intros Hcols Hnorm.
  pose proof (_get_custom_columns_well_typed _ _ Hcols) as Hwf.
  destruct (_get_custom_columns_spec _ Hwf) as (cols & Hcols' & Hs & Hnd & Hel).
  rewrite Hcols in Hcols'. injection Hcols' as <-.
  assert (∀ r', r' ∈ normalized → properties_mapping r' = true) as Hwf'.
  { intros r' Hr'.
    destruct (normalized_columns _ _ _ _ Hcols Hnorm Hr') as (m' & d' & Hm' & Hd' & _).
    unfold properties_mapping. by rewrite Hm', Hd'. }
  destruct (_get_custom_columns_spec _ Hwf') as (cols' & -> & Hs' & Hnd' & Hel').
  f_equal. apply sorted_lists_eq; [done..|].
  intros k. rewrite Hel'. split.
  - intros (r' & Hr' & m & d & Hm & Hd & Hk).
    destruct (normalized_columns _ _ _ _ Hcols Hnorm Hr') as (m' & d' & Hm' & Hd' & Hdom & _).
    apply Hdom. by simplify_eq.
  - intros Hk. apply Hel in Hk as Hdecl. destruct Hdecl as (r & Hr & _).
    apply normalize_Ok in Hnorm.
    apply list_elem_of_lookup in Hr as [i Hi].
    destruct (Forall2_lookup_l _ _ _ _ _ Hnorm Hi) as (r' & Hi' & _).
    assert (r' ∈ normalized) as Hr' by by eapply list_elem_of_lookup_2.
    apply normalize_Ok in Hnorm.
    destruct (normalized_columns _ _ _ _ Hcols Hnorm Hr') as (m' & d' & Hm' & Hd' & Hdom & _).
    exists r'. split; [done|]. exists m', d'. split_and!; [done..|]. by apply Hdom.
Qed.

(** * Further properties *)

(** ** Discovery *)

Lemma declared_columns_not_iterable r :
  reserved_not_iterable r = true → declared_columns r = Raise TypeError.
Proof.
  unfold reserved_not_iterable, declared_columns.
  destruct (meta (expectation_config r)) as [m|]; [|done].
  destruct (m !! _custom_property_columns_key) as [props|]; [|done].
  by destruct props.
Qed.

Lemma discover_loop_not_iterable validation_results acc :
  forallb (λ r, properties_mapping r || reserved_not_iterable r) validation_results = true →
  existsb reserved_not_iterable validation_results = true →
  for_each discover_step validation_results acc = Raise TypeError.
Proof.
  revert acc. induction validation_results as [|r rs IH]; intros acc Hall Hex; [done|].
  simpl in *. apply andb_true_iff in Hall as [Hr Hrs].
  unfold discover_step at 2.
  destruct (reserved_not_iterable r) eqn:Hni.
  - by rewrite declared_columns_not_iterable.
  - rewrite orb_false_r in Hr. simpl in Hex.
    destruct (declared_columns_Ok r Hr) as (keys & -> & _). simpl. by apply IH.
Qed.

(** X1: when the reserved key of one of the results holds None, a boolean
    or a number (the others holding a mapping or lacking the key), discovery
    raises [TypeError], and so does [render], which then neither normalizes a
    result nor reaches the inherited [render]. *)
Theorem discovery_raises_on_non_iterable
    (validation_results : list ExpectationValidationResult) :
  forallb (λ r, properties_mapping r || reserved_not_iterable r) validation_results = true →
  existsb reserved_not_iterable validation_results = true →
  _get_custom_columns validation_results = Raise TypeError
  ∧ ∀ super_render kw, render super_render validation_results kw = Raise TypeError.
Proof.
  intros Hall Hex.
  assert (_get_custom_columns validation_results = Raise TypeError) as Hraise.
  { rewrite _get_custom_columns_unfold.
    by rewrite (discover_loop_not_iterable _ _ Hall Hex). }
  split; [done|]. intros super_render kw. unfold render. by rewrite Hraise.
Qed.

Lemma discovery_raises_on_non_iterable_witness :
  forallb (λ r, properties_mapping r || reserved_not_iterable r)
          [Sample.with_columns; Fixture.none_under_key; Sample.plain] = true
  ∧ existsb reserved_not_iterable
            [Sample.with_columns; Fixture.none_under_key; Sample.plain] = true
  ∧ _get_custom_columns [Sample.with_columns; Fixture.none_under_key; Sample.plain]
    = Raise TypeError.
Proof.
  assert (forallb (λ r, properties_mapping r || reserved_not_iterable r)
            [Sample.with_columns; Fixture.none_under_key; Sample.plain] = true) as H1
    by (vm_compute; reflexivity).
  assert (existsb reserved_not_iterable
            [Sample.with_columns; Fixture.none_under_key; Sample.plain] = true) as H2
    by (vm_compute; reflexivity).
  split_and!; [exact H1|exact H2|].
  exact (proj1 (discovery_raises_on_non_iterable _ H1 H2)).
Defined.

(** X2: the list that discovery returns only depends on the set of the
    column names declared: two lists of results (with well-typed metadata) that
    declare the same names give the same columns, however the names are spread
    over the results and however often they are declared. *)
Theorem discovery_depends_on_names
    (validation_results validation_results' : list ExpectationValidationResult) :
  well_typed validation_results = true →
  well_typed validation_results' = true →
  (∀ k, (∃ r, r ∈ validation_results ∧ declares r k)
        ↔ (∃ r, r ∈ validation_results' ∧ declares r k)) →
  _get_custom_columns validation_results = _get_custom_columns validation_results'.
Proof.
  intros Hwf Hwf' Hsame.
  destruct (_get_custom_columns_spec _ (well_typed_elem_of _ Hwf))
    as (cols & -> & Hs & Hnd & Hel).
  destruct (_get_custom_columns_spec _ (well_typed_elem_of _ Hwf'))
    as (cols' & -> & Hs' & Hnd' & Hel').
  f_equal. apply sorted_lists_eq; [done..|].
  intros k. by rewrite Hel, Hel', Hsame.
Qed.

Lemma discovery_depends_on_names_witness :
  let once := [Sample.with_columns; Fixture.only_x] in
  let twice := [Fixture.only_x; Sample.with_columns; Sample.plain; Sample.with_columns] in
  well_typed once = true
  ∧ well_typed twice = true
  ∧ _get_custom_columns once = _get_custom_columns twice.
Proof.
  intros once twice.
  assert (well_typed once = true) as H1 by (vm_compute; reflexivity).
  assert (well_typed twice = true) as H2 by (vm_compute; reflexivity).
  split_and!; [exact H1|exact H2|].
  apply (discovery_depends_on_names once twice H1 H2).
  intros k. subst once twice. split.
  - intros (r & Hr & Hk). exists r. split; [|exact Hk].
    apply elem_of_cons in Hr as [->|Hr]; [apply elem_of_cons; right; left|].
    apply elem_of_cons in Hr as [->|Hr]; [left|by apply elem_of_nil in Hr].
  - intros (r & Hr & Hk).
    apply elem_of_cons in Hr as [->|Hr]; [exists Fixture.only_x; split; [right; left|exact Hk]|].
    apply elem_of_cons in Hr as [->|Hr];
      [exists Sample.with_columns; split; [left|exact Hk]|].
    apply elem_of_cons in Hr as [->|Hr].
    { destruct Hk as (m & d & Hm & _). discriminate Hm. }
    apply elem_of_cons in Hr as [->|Hr]; [|by apply elem_of_nil in Hr].
    exists Sample.with_columns. split; [left|exact Hk].
Defined.

(** ** [render] on its own output *)

Lemma normalized_well_typed validation_results custom_columns normalized :
  _get_custom_columns validation_results = Ok custom_columns →
  normalize custom_columns validation_results = Ok normalized →
  well_typed normalized = true.
Proof.
  intros Hcols Hnorm. unfold well_typed. apply forallb_forall.
  intros r' Hr'%list_elem_of_In.
  destruct (normalized_columns _ _ _ _ Hcols Hnorm Hr') as (m' & d' & Hm' & Hd' & _).
  unfold properties_mapping. by rewrite Hm', Hd'.
Qed.

(** X3: [render] passes to the inherited [render] the results with the
    normalized metadata, and a second [render], on these results, discovers the
    same columns, changes no metadata and passes the very same results on. *)
Theorem render_twice
    (validation_results : list ExpectationValidationResult) :
  well_typed validation_results = true →
  ∃ custom_columns normalized,
    _get_custom_columns validation_results = Ok custom_columns
    ∧ normalize custom_columns validation_results = Ok normalized
    ∧ _get_custom_columns normalized = Ok custom_columns
    ∧ normalize custom_columns normalized = Ok normalized
    ∧ ∀ (super_render : list ExpectationValidationResult → gmap string value
                        → completion RenderedTableContent) kw,
        render super_render validation_results kw
        = (content_block ← super_render normalized kw; Ok (normalized, content_block))
        ∧ render super_render normalized kw
          = (content_block ← super_render normalized kw; Ok (normalized, content_block)).
Proof.
  intros Hwf. pose proof (well_typed_elem_of _ Hwf) as Hwf'.
  destruct (_get_custom_columns_spec _ Hwf') as (cols & Hcols & _).
  destruct (normalize_spec cols _ Hwf') as (normalized & Hnorm & _).
  pose proof (_get_custom_columns_normalized _ _ _ Hcols Hnorm) as Hcols'.
  pose proof (normalize_idempotent _ _ _ Hnorm) as Hnorm'.
  exists cols, normalized. split_and!; [done..|].
  intros super_render kw. unfold render.
  rewrite Hcols, Hcols'. simpl. by rewrite Hnorm, Hnorm'.
Qed.

Lemma render_twice_witness :
  well_typed [Sample.plain; Sample.with_columns] = true
  ∧ ∃ normalized,
      normalize ["X"; "Y"; "Z"] [Sample.plain; Sample.with_columns] = Ok normalized
      ∧ _get_custom_columns normalized = Ok ["X"; "Y"; "Z"].
Proof.
  assert (well_typed [Sample.plain; Sample.with_columns] = true) as Hwf
    by (vm_compute; reflexivity).
  split; [exact Hwf|].
  destruct (render_twice _ Hwf) as (cols & normalized & Hcols & Hnorm & Hcols' & _).
  assert (_get_custom_columns [Sample.plain; Sample.with_columns] = Ok ["X"; "Y"; "Z"])
    as Hdiscovered by (vm_compute; reflexivity).
  rewrite Hdiscovered in Hcols. injection Hcols as <-.
  exists normalized. split; [exact Hnorm|exact Hcols'].
Defined.

(** ** Header of the table *)

Lemma header_options_lookup custom_columns (options : gmap string value) k :
  foldl (λ options column, <[ column := sortable ]> options) options custom_columns !! k
  = if bool_decide (k ∈ custom_columns) then Some sortable else options !! k.
Proof.
  revert options. induction custom_columns as [|column columns IH]; intros options; simpl.
  - done.
  - rewrite IH. destruct (decide (k = column)) as [->|Hne].
    + rewrite lookup_insert_eq. rewrite (bool_decide_eq_true_2 (column ∈ column :: columns))
        by left. by case_bool_decide.
    + rewrite lookup_insert_ne by done.
      rewrite (bool_decide_ext (k ∈ column :: columns) (k ∈ columns)); [done|].
      rewrite elem_of_cons. tauto.
Qed.

Lemma styling_step_Ok flag (before : option (gmap string value)) :
  (flag = Some false → classes_appendable (default ∅ before) = true) →
  ∃ styling',
    match flag with
    | Some false =>
        s ← add_class hide_succeeded_class
              match before with
              | Some s => if bool_decide (s = ∅) then ∅ else s
              | None => ∅
              end;
        Ok (Some s)
    | _ => Ok before
    end = Ok styling'.
Proof.
  intros Happ. destruct flag as [[|]|]; [by eexists| |by eexists].
  assert (match before with
          | Some s => if bool_decide (s = ∅) then ∅ else s
          | None => ∅
          end = default ∅ before) as ->.
  { destruct before as [s|]; [|done]. by case_bool_decide. }
  rewrite add_class_Ok by auto. by eexists.
Qed.

(** How [_process_content_block] builds its result. *)
Lemma _process_content_block_Ok super content_block flag render_object content_block' :
  _process_content_block super content_block flag render_object = Ok content_block' ↔
  ∃ custom_columns styling',
    match render_object with
    | Some validation_results => _get_custom_columns validation_results
    | None => Ok []
    end = Ok custom_columns
    ∧ match flag with
      | Some false =>
          s ← add_class hide_succeeded_class
                match styling (super content_block flag) with
                | Some s => if bool_decide (s = ∅) then ∅ else s
                | None => ∅
                end;
          Ok (Some s)
      | _ => Ok (styling (super content_block flag))
      end = Ok styling'
    ∧ content_block'
      = mkTable (header (super content_block flag))
                (["Status"; "Expectation"; "Observed Value"] ++ custom_columns)
                (foldl (λ options column, <[ column := sortable ]> options)
                       {[ "Status" := sortable ]} custom_columns)
                styling' (table (super content_block flag)).
Proof.
  unfold _process_content_block. split.
  - intros ([row options] & Hheader & (styling' & Hstyling & [= <-])%bind_Ok)%bind_Ok.
    destruct render_object as [validation_results|].
    + apply bind_Ok in Hheader as (cols & Hcols & [= <- <-]).
      by exists cols, styling'.
    + injection Hheader as <- <-. by exists [], styling'.
  - intros (cols & styling' & Hcols & Hstyling & ->).
    destruct render_object as [validation_results|].
    + rewrite Hcols. simpl. by rewrite Hstyling.
    + injection Hcols as <-. simpl. by rewrite Hstyling.
Qed.

(** X4: the header row made by [_process_content_block] is "Status",
    "Expectation", "Observed Value" followed by the custom columns discovered
    in the render object, the sortable option is given to "Status" and to each
    custom column and to no other label, and whatever header row and options
    the inherited processing had set are replaced; without a render object the
    header row is the three fixed labels. *)
Theorem header_row_of_render_object
    (super : RenderedTableContent → option bool → RenderedTableContent)
    (content_block : RenderedTableContent) (flag : option bool)
    (validation_results : list ExpectationValidationResult) :
  well_typed validation_results = true →
  (flag = Some false →
   classes_appendable (default ∅ (styling (super content_block flag))) = true) →
  ∃ custom_columns content_block' plain_block,
    _get_custom_columns validation_results = Ok custom_columns
    ∧ _process_content_block super content_block flag (Some validation_results)
      = Ok content_block'
    ∧ header_row content_block'
      = ["Status"; "Expectation"; "Observed Value"] ++ custom_columns
    ∧ length (header_row content_block') = 3 + length custom_columns
    ∧ (∀ k, header_row_options content_block' !! k
            = if bool_decide (k = "Status" ∨ k ∈ custom_columns)
              then Some sortable else None)
    ∧ _process_content_block super content_block flag None = Ok plain_block
    ∧ header_row plain_block = ["Status"; "Expectation"; "Observed Value"]
    ∧ header_row_options plain_block = {[ "Status" := sortable ]}.
Proof.
  intros Hwf Happ.
  destruct (_get_custom_columns_spec _ (well_typed_elem_of _ Hwf)) as (cols & Hcols & _).
  destruct (styling_step_Ok flag (styling (super content_block flag)) Happ)
    as (styling' & Hstyling).
  exists cols. eexists.
  exists (mkTable (header (super content_block flag))
                  ["Status"; "Expectation"; "Observed Value"]
                  {[ "Status" := sortable ]} styling'
                  (table (super content_block flag))).
  split; [done|]. split.
  { apply _process_content_block_Ok. exists cols, styling'. by rewrite Hcols. }
  simpl. split_and!; [done|done| | |done..].
  - intros k. rewrite header_options_lookup.
    destruct (decide (k ∈ cols)) as [Hin|Hnin].
    + rewrite !bool_decide_eq_true_2; auto.
    + rewrite (bool_decide_eq_false_2 (k ∈ cols)) by done.
      destruct (decide (k = "Status")) as [->|Hne].
      * rewrite lookup_singleton_eq. by rewrite bool_decide_eq_true_2 by auto.
      * rewrite lookup_singleton_ne by done.
        rewrite bool_decide_eq_false_2; [done|]. tauto.
  - apply _process_content_block_Ok. by exists [], styling'.
Qed.

Lemma header_row_of_render_object_witness :
  let block := Sample.styled (Some Fixture._default_content_block_styling) in
  well_typed [Sample.plain; Sample.with_columns] = true
  ∧ classes_appendable Fixture._default_content_block_styling = true
  ∧ ∃ content_block',
      _process_content_block (λ content_block _, content_block) block (Some false)
        (Some [Sample.plain; Sample.with_columns]) = Ok content_block'
      ∧ header_row content_block'
        = ["Status"; "Expectation"; "Observed Value"; "X"; "Y"; "Z"].
Proof.
  intros block.
  assert (well_typed [Sample.plain; Sample.with_columns] = true) as Hwf
    by (vm_compute; reflexivity).
  assert (classes_appendable Fixture._default_content_block_styling = true) as Happ
    by (vm_compute; reflexivity).
  split_and!; [exact Hwf|exact Happ|].
  destruct (header_row_of_render_object (λ content_block _, content_block) block
              (Some false) _ Hwf (λ _, Happ))
    as (cols & cb' & _ & Hcols & Hcb' & Hrow & _).
  assert (_get_custom_columns [Sample.plain; Sample.with_columns] = Ok ["X"; "Y"; "Z"])
    as Hdiscovered by (vm_compute; reflexivity).
  rewrite Hdiscovered in Hcols. injection Hcols as <-.
  exists cb'. split; [exact Hcb'|exact Hrow].
Defined.

(** X5: whatever the flag and the render object, [_process_content_block]
    leaves the header and the body of the table as the inherited processing
    made them, and touches no key of the styling but ["classes"]; the styling
    itself is left alone unless the flag is False (in particular when it is
    None). *)
Theorem process_content_block_frame
    (super : RenderedTableContent → option bool → RenderedTableContent)
    (content_block content_block' : RenderedTableContent) (flag : option bool)
    (render_object : option (list ExpectationValidationResult)) :
  _process_content_block super content_block flag render_object = Ok content_block' →
  header content_block' = header (super content_block flag)
  ∧ table content_block' = table (super content_block flag)
  ∧ (flag ≠ Some false → styling content_block' = styling (super content_block flag))
  ∧ (∀ k, k ≠ "classes" →
          default ∅ (styling content_block') !! k
          = default ∅ (styling (super content_block flag)) !! k).
Proof.
  intros Hcb. apply _process_content_block_Ok in Hcb
    as (cols & styling' & _ & Hstyling & ->). simpl.
  split_and!; [done..| |].
  - intros Hflag. destruct flag as [[|]|]; by simplify_eq.
  - intros k Hk. destruct flag as [[|]|]; simplify_eq; try done.
    apply bind_Ok in Hstyling as (s & Hadd & [= <-]). simpl.
    set (before := styling (super content_block (Some false))) in *.
    assert (match before with
            | Some s => if bool_decide (s = ∅) then ∅ else s
            | None => ∅
            end = default ∅ before) as Heq.
    { destruct before as [s0|]; [|done]. by case_bool_decide. }
    rewrite Heq in Hadd. unfold add_class in Hadd.
    destruct (default ∅ before !! "classes") as [classes|].
    + destruct (truthy classes).
      * destruct classes; simplify_eq. by rewrite lookup_insert_ne.
      * simplify_eq. by rewrite lookup_insert_ne.
    + simplify_eq. by rewrite lookup_insert_ne.
Qed.

Lemma process_content_block_frame_witness :
  let block := Sample.styled (Some Fixture._default_content_block_styling) in
  ∃ content_block',
    _process_content_block (λ content_block _, content_block) block (Some false) None
    = Ok content_block'
    ∧ default ∅ (styling content_block') !! "body"
      = Some (VDict {[ "classes" := VList [VStr "table"] ]}).
Proof.
  intros block.
  assert (∃ content_block',
            _process_content_block (λ content_block _, content_block) block
              (Some false) None = Ok content_block') as [cb' Hcb']
    by (eexists; vm_compute; reflexivity).
  exists cb'. split; [exact Hcb'|].
  destruct (process_content_block_frame _ _ _ _ _ Hcb') as (_ & _ & _ & Hkeys).
  rewrite (Hkeys "body") by discriminate. vm_compute. reflexivity.
Defined.

(** X6: when the flag is False and the styling holds, under ["classes"], a
    true value that is not a list (a non-empty string, a number other than 0,
    True, a non-empty dictionary), [styling["classes"].append] raises
    [AttributeError] and no table is returned. *)
Theorem classes_without_append_raise
    (super : RenderedTableContent → option bool → RenderedTableContent)
    (content_block : RenderedTableContent)
    (render_object : option (list ExpectationValidationResult))
    (s : gmap string value) (classes : value) :
  render_object_well_typed render_object = true →
  styling (super content_block (Some false)) = Some s →
  s !! "classes" = Some classes →
  truthy classes = true →
  without_append classes = true →
  _process_content_block super content_block (Some false) render_object
  = Raise AttributeError.
Proof.
  intros Hwf Hs Hclasses Htrue Hna. unfold _process_content_block.
  destruct (header_Ok _ Hwf) as (cols & Hcols).
  assert (s ≠ ∅) as Hne by (intros ->; by rewrite lookup_empty in Hclasses).
  destruct render_object as [validation_results|]; simpl in Hcols.
  - rewrite Hcols. simpl. rewrite Hs. rewrite bool_decide_eq_false_2 by done.
    unfold add_class. rewrite Hclasses, Htrue. by destruct classes.
  - simpl. rewrite Hs. rewrite bool_decide_eq_false_2 by done.
    unfold add_class. rewrite Hclasses, Htrue. by destruct classes.
Qed.

Lemma classes_without_append_raise_witness :
  let s : gmap string value := {[ "classes" := VStr "table" ]} in
  render_object_well_typed None = true
  ∧ styling (Sample.styled (Some s)) = Some s
  ∧ s !! "classes" = Some (VStr "table")
  ∧ truthy (VStr "table") = true
  ∧ without_append (VStr "table") = true
  ∧ _process_content_block (λ content_block _, content_block) (Sample.styled (Some s))
      (Some false) None = Raise AttributeError.
Proof.
  intros s.
  assert (s !! "classes" = Some (VStr "table")) as H3 by (vm_compute; reflexivity).
  split_and!; [reflexivity|reflexivity|exact H3|reflexivity|reflexivity|].
  exact (classes_without_append_raise (λ content_block _, content_block)
           (Sample.styled (Some s)) None s (VStr "table")
           eq_refl eq_refl H3 eq_refl eq_refl).
Defined.

(** ** Width of rows and header *)

Lemma custom_property_values_count r customs :
  custom_property_values (expectation_config r) = Ok customs →
  length customs = size (declared_paths r).
Proof.
  unfold declared_paths. intros Hc.
  destruct (meta (expectation_config r)) as [m|] eqn:Hm.
  - destruct (m !! _custom_property_columns_key) as [props|] eqn:Hp.
    + destruct props as [| | | | |d|];
        try (unfold custom_property_values in Hc; by rewrite Hm, Hp in Hc).
      by eapply custom_property_values_length.
    + unfold custom_property_values in Hc. rewrite Hm, Hp in Hc. by injection Hc as <-.
  - unfold custom_property_values in Hc. rewrite Hm in Hc. by injection Hc as <-.
Qed.

Lemma base_row_length_any status_cell cell observed_value :
  length (base_row status_cell cell observed_value)
  = length status_cell + (if bool_decide (cell = []) then 0 else 1)
    + length observed_value.
Proof.
  destruct cell as [|x cell].
  - rewrite base_row_length_empty. simpl. lia.
  - rewrite base_row_length by done. by rewrite bool_decide_eq_false_2.
Qed.

(** The number of cells of a returned row. *)
Lemma row_generator_fn_length reg icon_default ty fn r rc kw rows log :
  row_generator_fn reg icon_default ty fn r rc kw = (Ok rows, log) →
  ∃ rc' cell row,
    load_evaluation_parameters rc kw = Ok rc'
    ∧ fn (expectation_config r) rc' = Returns cell
    ∧ rows = [row]
    ∧ length row
      = 2 + (if bool_decide
                  (cell ++ (try_logging [] (unexpected_statement_call reg ty r)).1
                        ++ (if truthy (try_logging VNone (unexpected_table_call reg ty r)).1
                            then [(try_logging VNone (unexpected_table_call reg ty r)).1]
                            else []) = [])
             then 0 else 1)
        + size (declared_paths r).
Proof.
  intros (rc' & cell & icon & customs & Hload & Hfn & _ & Hcustoms & -> & _)%row_generator_fn_Ok.
  exists rc', cell. eexists. split_and!; [done..|].
  rewrite length_app, base_row_length_any, observed_value_length, merge_unexpected_eq.
  rewrite (custom_property_values_count _ _ Hcustoms). simpl. lia.
Qed.

(** X7: a table returned by the row generator has exactly one row; its row
    has two cells (status and observed value), one more unless the merged
    description is empty, and one per key of the reserved mapping of the
    result (none when the metadata or the key is missing): a result that has
    not been normalized gets no cell for the columns it does not declare. *)
Theorem row_width_exact
    (reg : Registry)
    (missing : ExpectationConfiguration → option (gmap string value) → call (list value))
    (icon_default : ExpectationValidationResult → call value)
    (ty : string) (r : ExpectationValidationResult)
    (rc : option (gmap string value)) (kw : gmap string value)
    (rows : list (list value)) (log : list LogRecord) :
  _get_content_block_fn reg missing icon_default ty r rc kw = (Ok rows, log) →
  ∃ row, rows = [row]
         ∧ (length row = 2 + size (declared_paths r)
            ∨ length row = 3 + size (declared_paths r))
         ∧ (length row = 3 + size (declared_paths r) ↔
            ∃ rc' cell,
              load_evaluation_parameters rc kw = Ok rc'
              ∧ expectation_string_fn reg missing ty (expectation_config r) rc'
                = Returns cell
              ∧ cell ++ (try_logging [] (unexpected_statement_call reg ty r)).1
                     ++ (if truthy (try_logging VNone (unexpected_table_call reg ty r)).1
                         then [(try_logging VNone (unexpected_table_call reg ty r)).1]
                         else []) ≠ []).
Proof.
  intros Hgen. unfold _get_content_block_fn in Hgen.
  destruct (row_generator_fn_length _ _ _ _ _ _ _ _ _ Hgen)
    as (rc' & cell & row & Hload & Hfn & -> & Hlen).
  exists row. split; [done|]. case_bool_decide as Hempty.
  - split; [left; lia|]. split; [lia|].
    intros (rc'' & cell' & Hload' & Hfn' & Hne).
    rewrite Hload in Hload'. injection Hload' as <-.
    rewrite Hfn in Hfn'. injection Hfn' as <-. done.
  - split; [right; lia|]. split; [|lia]. intros _. by exists rc', cell.
Qed.

Lemma row_width_exact_witness :
  let row := [VContent "failure"; VStr "--";
              VList [VInt 5]; VList [VStr "N/A"]; VList [VStr "N/A"]] in
  _get_content_block_fn Sample.empty_description Sample.missing_content_block_fn
    Sample.status_icon_renderer "T2" Sample.with_columns None ∅ = (Ok [row], [])
  ∧ (length row = 2 + size (declared_paths Sample.with_columns)
     ∨ length row = 3 + size (declared_paths Sample.with_columns)).
Proof.
  intros row.
  assert (_get_content_block_fn Sample.empty_description Sample.missing_content_block_fn
            Sample.status_icon_renderer "T2" Sample.with_columns None ∅
          = (Ok [row], [])) as Hgen by (vm_compute; reflexivity).
  split; [exact Hgen|].
  destruct (row_width_exact _ _ _ _ _ _ _ _ _ Hgen) as (row' & Hrow & Hlen & _).
  injection Hrow as <-. exact Hlen.
Defined.

Lemma normalized_row_width reg icon_default ty fn validation_results custom_columns
    normalized r' rc kw rows log :
  _get_custom_columns validation_results = Ok custom_columns →
  normalize custom_columns validation_results = Ok normalized →
  r' ∈ normalized →
  row_generator_fn reg icon_default ty fn r' rc kw = (Ok rows, log) →
  (∀ rc' cell, load_evaluation_parameters rc kw = Ok rc' →
               fn (expectation_config r') rc' = Returns cell → cell ≠ []) →
  ∃ row, rows = [row] ∧ length row = 3 + length custom_columns.
Proof.
  intros Hcols Hnorm Hin Hgen Hne.
  destruct (row_generator_fn_length _ _ _ _ _ _ _ _ _ Hgen)
    as (rc' & cell & row & Hload & Hfn & -> & Hlen).
  exists row. split; [done|]. rewrite Hlen.
  destruct (normalized_columns _ _ _ _ Hcols Hnorm Hin) as (m' & d' & Hm' & Hd' & _ & Hsize).
  unfold declared_paths. rewrite Hm', Hd', Hsize.
  rewrite bool_decide_eq_false_2; [done|].
  specialize (Hne _ _ Hload Hfn). by destruct cell.
Qed.

(** X8: after [render] has normalized the results, the header row that
    [_process_content_block] computes from them and every row that the row
    generator returns for one of them, the prescriptive renderer having
    returned a fragment, have the same number of cells. *)
Theorem header_matches_rows
    (reg : Registry)
    (missing : ExpectationConfiguration → option (gmap string value) → call (list value))
    (icon_default : ExpectationValidationResult → call value)
    (super : RenderedTableContent → option bool → RenderedTableContent)
    (content_block : RenderedTableContent) (flag : option bool)
    (validation_results : list ExpectationValidationResult) :
  well_typed validation_results = true →
  (flag = Some false →
   classes_appendable (default ∅ (styling (super content_block flag))) = true) →
  ∃ custom_columns normalized content_block',
    _get_custom_columns validation_results = Ok custom_columns
    ∧ normalize custom_columns validation_results = Ok normalized
    ∧ _process_content_block super content_block flag (Some normalized)
      = Ok content_block'
    ∧ ∀ r' ty rc kw rows log row,
        r' ∈ normalized →
        _get_content_block_fn reg missing icon_default ty r' rc kw = (Ok rows, log) →
        (∀ rc' cell,
           load_evaluation_parameters rc kw = Ok rc' →
           expectation_string_fn reg missing ty (expectation_config r') rc'
           = Returns cell →
           cell ≠ []) →
        row ∈ rows →
        length row = length (header_row content_block').
Proof.
  intros Hwf Happ. pose proof (well_typed_elem_of _ Hwf) as Hwf'.
  destruct (_get_custom_columns_spec _ Hwf') as (cols & Hcols & _).
  destruct (normalize_spec cols _ Hwf') as (normalized & Hnorm & _).
  pose proof (_get_custom_columns_normalized _ _ _ Hcols Hnorm) as Hcols'.
  destruct (styling_step_Ok flag (styling (super content_block flag)) Happ)
    as (styling' & Hstyling).
  exists cols, normalized. eexists. split_and!; [done..| |].
  { apply _process_content_block_Ok. exists cols, styling'. by rewrite Hcols'. }
  intros r' ty rc kw rows log row Hin Hgen Hne Hrow. simpl.
  destruct (normalized_row_width _ _ _ _ _ _ _ _ _ _ _ _ Hcols Hnorm Hin Hgen Hne)
    as (row' & -> & Hlen).
  apply list_elem_of_singleton in Hrow as ->. by rewrite Hlen.
Qed.

Lemma header_matches_rows_witness :
  let block := Sample.styled None in
  well_typed [Sample.plain; Sample.with_columns] = true
  ∧ ∃ normalized content_block',
      normalize ["X"; "Y"; "Z"] [Sample.plain; Sample.with_columns] = Ok normalized
      ∧ _process_content_block (λ content_block _, content_block) block (Some true)
          (Some normalized) = Ok content_block'
      ∧ length (header_row content_block') = 6.
Proof.
  intros block.
  assert (well_typed [Sample.plain; Sample.with_columns] = true) as Hwf
    by (vm_compute; reflexivity).
  split; [exact Hwf|].
  destruct (header_matches_rows Sample.no_renderer Sample.missing_content_block_fn
              Sample.status_icon_renderer (λ content_block _, content_block) block
              (Some true) _ Hwf)
    as (cols & normalized & cb' & Hcols & Hnorm & Hcb' & Hrows); [discriminate|].
  assert (_get_custom_columns [Sample.plain; Sample.with_columns] = Ok ["X"; "Y"; "Z"])
    as Hdiscovered by (vm_compute; reflexivity).
  rewrite Hdiscovered in Hcols. injection Hcols as <-.
  exists normalized, cb'. split; [exact Hnorm|]. split; [exact Hcb'|].
  assert (normalize ["X"; "Y"; "Z"] [Sample.plain; Sample.with_columns]
          = Ok [set_meta {[ _custom_property_columns_key :=
                              VDict (<[ "X" := VNone ]> (<[ "Y" := VNone ]>
                                       {[ "Z" := VNone ]})) ]} Sample.plain;
                Sample.with_columns]) as Hnormalized
    by (vm_compute; reflexivity).
  rewrite Hnormalized in Hnorm. injection Hnorm as <-.
  symmetry.
  apply (Hrows Sample.with_columns "T2" None ∅
           [[VContent "failure"; VContent "T2"; VStr "--";
             VList [VInt 5]; VList [VStr "N/A"]; VList [VStr "N/A"]]] []
           [VContent "failure"; VContent "T2"; VStr "--";
            VList [VInt 5]; VList [VStr "N/A"]; VList [VStr "N/A"]]).
  - right. left.
  - vm_compute. reflexivity.
  - intros rc' cell _ Hcell. vm_compute in Hcell. injection Hcell as <-. discriminate.
  - left.
Defined.

(** ** Cells of the custom columns *)

Lemma custom_property_cell_resolvable m d key cell :
  custom_property_cell m d key = Ok cell ↔
  ∃ v, d !! key = Some v ∧ resolvable m v = true ∧ cell = resolved_cell m v.
Proof.
  unfold custom_property_cell. simpl. split.
  - destruct (d !! key) as [v|]; [|done]. simpl. intros Hcell. exists v.
    destruct v as [| | |path| | |]; simplify_eq; try done. simpl in *.
    destruct (resolve_path m path) as [obj|r] eqn:Hp; [by simplify_eq|].
    apply resolve_path_Raise in Hp as [[k ->]| ->]; by simplify_eq.
  - intros (v & -> & Hres & ->). simpl.
    destruct v as [| | |path| | |]; try done. simpl in *.
    destruct (resolve_path m path) as [obj|r] eqn:Hp; [done|].
    apply resolve_path_Raise in Hp as [[k ->]| ->]; done.
Qed.

Lemma elem_of_dict_values (d : gmap string value) k v :
  d !! k = Some v → v ∈ (map_to_list d).*2.
Proof.
  intros Hk. apply list_elem_of_fmap. exists (k, v). split; [done|].
  by apply elem_of_map_to_list.
Qed.

Lemma Forall2_fmap_eq {A B} (f : A → B) (xs : list A) (ys : list B) :
  Forall2 (λ x y, y = f x) xs ys → ys = f <$> xs.
Proof. induction 1 as [|x y xs ys -> _ IH]; simpl; [done|]. by rewrite IH. Qed.

(** X9: for a configuration whose reserved key holds the mapping [d], the
    custom property values are returned exactly when every value of [d] is
    None or a string whose walk does not subscript a value that is not a
    mapping; they are then one cell per key of [d], in ascending key order:
    the list with the value found when the path resolves, the list with "N/A"
    when the value is None or a key of the path is missing. *)
Theorem custom_property_values_resolved
    (expectation : ExpectationConfiguration) (m d : gmap string value) :
  meta expectation = Some m →
  m !! _custom_property_columns_key = Some (VDict d) →
  ((∃ cells, custom_property_values expectation = Ok cells)
   ↔ forallb (resolvable m) (map_to_list d).*2 = true)
  ∧ ∀ cells,
      custom_property_values expectation = Ok cells →
      cells = (λ key, resolved_cell m (default VNone (d !! key)))
              <$> sorted (dict_keys d).
Proof.
  intros Hm Hd. split.
  - split.
    + intros (cells & Hcells). apply (custom_property_values_Ok _ _ _ _ Hm Hd) in Hcells.
      apply forallb_forall. intros v Hv%list_elem_of_In.
      apply list_elem_of_fmap in Hv as ([k v'] & -> & Hkv%elem_of_map_to_list). simpl.
      assert (k ∈ sorted (dict_keys d)) as Hk.
      { apply sorted_elem_of, elem_of_dict_keys. eauto. }
      apply list_elem_of_lookup in Hk as [i Hi].
      destruct (Forall2_lookup_l _ _ _ _ _ Hcells Hi) as (cell & _ & Hcell).
      apply custom_property_cell_resolvable in Hcell as (v & Hv & Hres & _).
      by simplify_eq.
    + intros Hall. rewrite forallb_forall in Hall.
      exists ((λ key, resolved_cell m (default VNone (d !! key))) <$> sorted (dict_keys d)).
      apply (custom_property_values_Ok _ _ _ _ Hm Hd).
      apply Forall2_fmap_r, Forall_Forall2_diag, Forall_forall.
      intros k [v Hv]%sorted_elem_of%elem_of_dict_keys.
      apply custom_property_cell_resolvable. exists v. rewrite Hv. split_and!; [done| |done].
      apply Hall, list_elem_of_In. by eapply elem_of_dict_values.
  - intros cells Hcells%(custom_property_values_Ok _ _ _ _ Hm Hd).
    apply Forall2_fmap_eq. eapply Forall2_impl; [exact Hcells|].
    intros k cell (v & -> & _ & ->)%custom_property_cell_resolvable. done.
Qed.

Lemma custom_property_values_resolved_witness :
  let expectation := expectation_config Sample.with_columns in
  let d : gmap string value :=
    <[ "X" := VStr "a.b" ]> (<[ "Y" := VStr "a.c" ]> {[ "Z" := VNone ]}) in
  meta expectation = Some (Sample.meta_with d)
  ∧ Sample.meta_with d !! _custom_property_columns_key = Some (VDict d)
  ∧ forallb (resolvable (Sample.meta_with d)) (map_to_list d).*2 = true
  ∧ ∃ cells, custom_property_values expectation = Ok cells.
Proof.
  intros expectation d.
  assert (meta expectation = Some (Sample.meta_with d)) as H1 by reflexivity.
  assert (Sample.meta_with d !! _custom_property_columns_key = Some (VDict d)) as H2
    by (vm_compute; reflexivity).
  assert (forallb (resolvable (Sample.meta_with d)) (map_to_list d).*2 = true) as H3
    by (vm_compute; reflexivity).
  split_and!; [exact H1|exact H2|exact H3|].
  exact (proj2 (proj1 (custom_property_values_resolved expectation _ d H1 H2)) H3).
Defined.

Lemma normalized_lookup validation_results custom_columns normalized i r r' :
  _get_custom_columns validation_results = Ok custom_columns →
  normalize custom_columns validation_results = Ok normalized →
  validation_results !! i = Some r →
  normalized !! i = Some r' →
  ∃ m' d',
    r' = set_meta m' r
    ∧ m' !! _custom_property_columns_key = Some (VDict d')
    ∧ sorted (dict_keys d') = custom_columns
    ∧ ∀ k, k ∈ custom_columns → d' !! k = Some (default VNone (declared_paths r !! k)).
Proof.
  intros Hcols Hnorm Hi Hi'.
  pose proof (_get_custom_columns_well_typed _ _ Hcols) as Hwf.
  destruct (_get_custom_columns_spec _ Hwf) as (cols & Hcols' & Hs & Hnd & Hel).
  rewrite Hcols in Hcols'. injection Hcols' as <-.
  destruct (normalize_spec custom_columns _ Hwf) as (normalized' & Hnorm' & Hall).
  rewrite Hnorm in Hnorm'. injection Hnorm' as <-.
  destruct (Forall2_lookup_l _ _ _ _ _ Hall Hi)
    as (r'' & Hi'' & m' & d' & Hr' & Hm' & _ & Hd').
  rewrite Hi' in Hi''. injection Hi'' as <-.
  assert (r' ∈ normalized) as Hin by by eapply list_elem_of_lookup_2.
  destruct (normalized_columns _ _ _ _ Hcols Hnorm Hin) as (m'' & d'' & Hm'' & Hd'' & Hdom & _).
  rewrite Hr', set_meta_meta in Hm''. injection Hm'' as <-.
  rewrite Hm' in Hd''. injection Hd'' as <-.
  exists m', d'. split_and!; [done..| |].
  - apply sorted_lists_eq; [apply sorted_StronglySorted|done| |done|].
    + apply sorted_NoDup, NoDup_dict_keys.
    + intros k. by rewrite sorted_elem_of, elem_of_dict_keys.
  - intros k Hk. rewrite Hd'. destruct (declared_paths r !! k); [done|].
    by rewrite bool_decide_eq_true_2.
Qed.

(** X10: in a row generated after normalization, the custom cells follow
    the discovered columns one for one: the cell at the place of a column holds
    the value found by the path that the result declares for this column, and
    "N/A" when the result declares no path for it, declares None or a key of
    the path is missing. *)
Theorem custom_cells_follow_columns
    (validation_results normalized : list ExpectationValidationResult)
    (custom_columns : list string) (i : nat)
    (r r' : ExpectationValidationResult) (cells : list value) :
  _get_custom_columns validation_results = Ok custom_columns →
  normalize custom_columns validation_results = Ok normalized →
  validation_results !! i = Some r →
  normalized !! i = Some r' →
  custom_property_values (expectation_config r') = Ok cells →
  ∃ m', meta (expectation_config r') = Some m'
        ∧ cells = (λ column, resolved_cell m' (default VNone (declared_paths r !! column)))
                  <$> custom_columns.
Proof.
  intros Hcols Hnorm Hi Hi' Hcells.
  destruct (normalized_lookup _ _ _ _ _ _ Hcols Hnorm Hi Hi')
    as (m' & d' & -> & Hm' & Hkeys & Hd').
  exists m'. split; [done|].
  apply (custom_property_values_Ok _ m' d') in Hcells; [|done..].
  rewrite Hkeys in Hcells. apply Forall2_fmap_eq.
  apply Forall2_same_length_lookup. split; [by eapply Forall2_length|].
  intros j column cell Hcolumn Hcell.
  destruct (Forall2_lookup_l _ _ _ _ _ Hcells Hcolumn) as (cell' & Hcell' & Hok).
  rewrite Hcell in Hcell'. injection Hcell' as <-.
  apply custom_property_cell_resolvable in Hok as (v & Hv & _ & ->).
  rewrite Hd' in Hv by by eapply list_elem_of_lookup_2. by injection Hv as <-.
Qed.

Lemma custom_cells_follow_columns_witness :
  let normalized_plain :=
    set_meta {[ _custom_property_columns_key :=
                  VDict (<[ "X" := VNone ]> (<[ "Y" := VNone ]> {[ "Z" := VNone ]})) ]}
             Sample.plain in
  _get_custom_columns [Sample.plain; Sample.with_columns] = Ok ["X"; "Y"; "Z"]
  ∧ normalize ["X"; "Y"; "Z"] [Sample.plain; Sample.with_columns]
    = Ok [normalized_plain; Sample.with_columns]
  ∧ custom_property_values (expectation_config Sample.with_columns)
    = Ok [VList [VInt 5]; VList [VStr "N/A"]; VList [VStr "N/A"]]
  ∧ ∃ m', [VList [VInt 5]; VList [VStr "N/A"]; VList [VStr "N/A"]]
          = (λ column, resolved_cell m'
                         (default VNone (declared_paths Sample.with_columns !! column)))
            <$> ["X"; "Y"; "Z"].
Proof.
  intros normalized_plain.
  assert (_get_custom_columns [Sample.plain; Sample.with_columns] = Ok ["X"; "Y"; "Z"])
    as H1 by (vm_compute; reflexivity).
  assert (normalize ["X"; "Y"; "Z"] [Sample.plain; Sample.with_columns]
          = Ok [normalized_plain; Sample.with_columns]) as H2
    by (vm_compute; reflexivity).
  assert (custom_property_values (expectation_config Sample.with_columns)
          = Ok [VList [VInt 5]; VList [VStr "N/A"]; VList [VStr "N/A"]]) as H3
    by (vm_compute; reflexivity).
  split_and!; [exact H1|exact H2|exact H3|].
  destruct (custom_cells_follow_columns _ _ _ 1 Sample.with_columns Sample.with_columns
              _ H1 H2 eq_refl eq_refl H3) as (m' & _ & Hcells).
  exists m'. exact Hcells.
Defined.

(** ** Dotted paths *)

Lemma split_not_nil sep s : split sep s ≠ [].
Proof.
  destruct s as [|c s]; simpl; [done|].
  destruct (Ascii.eqb c sep); [done|]. by destruct (split sep s).
Qed.

Lemma split_app sep p q :
  split sep (p +:+ String sep q) = split sep p ++ split sep q.
Proof.
  induction p as [|c p IH].
  - change (EmptyString +:+ String sep q) with (String sep q). simpl.
    by rewrite Ascii.eqb_refl.
  - change (String c p +:+ String sep q) with (String c (p +:+ String sep q)).
    simpl. destruct (Ascii.eqb c sep); [by rewrite IH|].
    rewrite IH. pose proof (split_not_nil sep p) as Hne.
    by destruct (split sep p).
Qed.

Lemma split_no_dot s : has_dot s = false → split "." s = [s].
Proof.
  induction s as [|c s IH]; simpl; [done|].
  intros [Hc Hs]%orb_false_iff. rewrite Hc. by rewrite IH.
Qed.

Lemma split_segments_no_dot s : Forall (λ seg, has_dot seg = false) (split "." s).
Proof.
  induction s as [|c s IH]; simpl; [by repeat constructor|].
  destruct (Ascii.eqb c ".") eqn:Hc; [by constructor|].
  destruct (split "." s) as [|seg segs].
  - constructor; [simpl; by rewrite Hc|constructor].
  - inversion IH as [|? ? Hseg Hsegs]; subst. constructor; [|done].
    simpl. by rewrite Hc.
Qed.

Lemma split_concat seg segs :
  forallb (λ s, negb (has_dot s)) (seg :: segs) = true →
  split "." (String.concat "." (seg :: segs)) = seg :: segs.
Proof.
  revert seg. induction segs as [|seg' segs IH]; intros seg Hall.
  - simpl in *. apply split_no_dot. rewrite andb_true_r in Hall.
    by apply negb_true_iff.
  - change (String.concat "." (seg :: seg' :: segs))
      with (seg +:+ String "." (String.concat "." (seg' :: segs))).
    rewrite split_app. simpl in Hall. apply andb_true_iff in Hall as [Hseg Hall].
    rewrite split_no_dot by by apply negb_true_iff. by rewrite IH.
Qed.

(** X11: a path made of keys joined by dots resolves by looking the keys up
    one after the other, from the metadata down, when no key holds a dot; and
    no key that holds a dot is ever looked up: the segments that a path is
    split into hold none. *)
Theorem joined_keys_resolve (m : gmap string value) (seg : string) (segs : list string) :
  forallb (λ s, negb (has_dot s)) (seg :: segs) = true →
  resolve_path m (String.concat "." (seg :: segs))
  = for_each getitem (seg :: segs) (VDict m)
  ∧ ∀ path, Forall (λ s, has_dot s = false) (split "." path).
Proof.
  intros Hall. split; [|apply split_segments_no_dot].
  unfold resolve_path. by rewrite split_concat.
Qed.

Lemma joined_keys_resolve_witness :
  forallb (λ s, negb (has_dot s)) ["a"; "b"] = true
  ∧ resolve_path (Sample.meta_with ∅) "a.b" = Ok (VInt 5).
Proof.
  assert (forallb (λ s, negb (has_dot s)) ["a"; "b"] = true) as H by reflexivity.
  split; [exact H|].
  change "a.b" with (String.concat "." ["a"; "b"]).
  rewrite (proj1 (joined_keys_resolve (Sample.meta_with ∅) "a" ["b"] H)).
  vm_compute. reflexivity.
Defined.

Lemma for_each_getitem_not_mapping segs v :
  segs ≠ [] → (∀ d, v ≠ VDict d) → for_each getitem segs v = Raise TypeError.
Proof.
  intros Hne Hv. destruct segs as [|seg segs]; [done|]. simpl.
  destruct v; try done. by destruct (Hv d).
Qed.

(** X12: extending a path by a dot and a further path continues the walk
    from the value that the path resolves to: in the mapping found, if it is
    one; with a [TypeError] if the value found is anything else (a number, a
    string, a list, None); and an exception of the walk of the path is the
    exception of the walk of the extended path. *)
Theorem path_extension (m : gmap string value) (p q : string) :
  resolve_path m (p +:+ String "." q)
  = match resolve_path m p with
    | Ok (VDict d) => resolve_path d q
    | Ok _ => Raise TypeError
    | Raise r => Raise r
    end.
Proof.
  unfold resolve_path. rewrite split_app, for_each_app.
  destruct (for_each getitem (split "." p) (VDict m)) as [v|r]; simpl; [|done].
  destruct v; try (apply for_each_getitem_not_mapping; [apply split_not_nil|done]).
  done.
Qed.

(** ** Exceptions and log of the row generator *)

Lemma load_evaluation_parameters_Raise rc kw r :
  load_evaluation_parameters rc kw = Raise r → r = TypeError.
Proof.
  unfold load_evaluation_parameters.
  destruct (kw !! "evaluation_parameters") as [v|]; [|done].
  destruct v, rc; by intros [= <-].
Qed.

Lemma custom_property_values_Raise_kind expectation r :
  custom_property_values expectation = Raise r → r = TypeError ∨ r = AttributeError.
Proof.
  unfold custom_property_values.
  destruct (meta expectation) as [m|]; [|done].
  destruct (m !! _custom_property_columns_key) as [props|]; [|done].
  destruct props as [| | | | |d|]; simpl; try (intros [= <-]; by left).
  intros (key & acc & Hkey & Hcell)%for_each_Raise.
  apply sorted_elem_of, elem_of_dict_keys in Hkey as [v Hv].
  unfold custom_property_cell in Hcell. simpl in Hcell. rewrite Hv in Hcell.
  simpl in Hcell.
  destruct v as [| | |path| | |]; simpl in Hcell; try (injection Hcell as <-; by right).
  - done.
  - destruct (resolve_path m path) as [obj|r'] eqn:Hp; [done|].
    apply resolve_path_Raise in Hp as [[k ->]| ->]; [done|].
    injection Hcell as <-. by left.
Qed.

(** X13: for a result whose reserved key, when present, holds a mapping,
    the exceptions that leave the row generator are those of the prescriptive
    and of the status icon renderers, [TypeError] and [AttributeError]; a
    [KeyError] of a subscript of the module never leaves it, and neither does
    an exception of an unexpected_statement, unexpected_table or
    observed_value renderer. *)
Theorem exceptions_of_row_generator
    (reg : Registry) (icon_default : ExpectationValidationResult → call value)
    (ty : string)
    (fn : ExpectationConfiguration → option (gmap string value) → call (list value))
    (r : ExpectationValidationResult)
    (rc : option (gmap string value)) (kw : gmap string value) (raised : Raised) :
  properties_mapping r = true →
  (row_generator_fn reg icon_default ty fn r rc kw).1 = Raise raised →
  raised = TypeError
  ∨ raised = AttributeError
  ∨ ∃ e, raised = Uncaught e
         ∧ ((∃ rc', load_evaluation_parameters rc kw = Ok rc'
                    ∧ fn (expectation_config r) rc' = Raises e)
            ∨ status_icon_call reg icon_default ty r = Raises e).
Proof.
  intros _ Hgen.
  destruct (load_evaluation_parameters rc kw) as [rc'|x] eqn:Hload.
  2: { rewrite (row_generator_fn_load_raises _ _ _ _ _ _ _ _ Hload) in Hgen.
       injection Hgen as <-. left. by eapply load_evaluation_parameters_Raise. }
  destruct (fn (expectation_config r) rc') as [cell|e] eqn:Hfn.
  2: { rewrite (row_generator_fn_prescriptive_raises _ _ _ _ _ _ _ _ _ Hload Hfn) in Hgen.
       injection Hgen as <-. right. right. exists e. split; [done|]. left. eauto. }
  destruct (status_icon_call reg icon_default ty r) as [icon|e] eqn:Hicon.
  2: { rewrite (row_generator_fn_status_raises _ _ _ _ _ _ _ _ _ _ Hload Hfn Hicon) in Hgen.
       injection Hgen as <-. right. right. exists e. split; [done|]. by right. }
  rewrite (row_generator_fn_assembles _ _ _ _ _ _ _ _ _ _ Hload Hfn Hicon) in Hgen.
  simpl in Hgen.
  destruct (custom_property_values (expectation_config r)) as [customs|x] eqn:Hc;
    simpl in Hgen; [done|].
  injection Hgen as <-.
  destruct (custom_property_values_Raise_kind _ _ Hc) as [->| ->]; auto.
Qed.

Lemma exceptions_of_row_generator_witness :
  properties_mapping Fixture.number_for_path = true
  ∧ (row_generator_fn Sample.no_renderer Sample.status_icon_renderer "T5"
       Sample.missing_content_block_fn Fixture.number_for_path None ∅).1
    = Raise AttributeError.
Proof.
  assert (properties_mapping Fixture.number_for_path = true) as Hwf
    by (vm_compute; reflexivity).
  assert ((row_generator_fn Sample.no_renderer Sample.status_icon_renderer "T5"
             Sample.missing_content_block_fn Fixture.number_for_path None ∅).1
          = Raise AttributeError) as H by (vm_compute; reflexivity).
  split; [exact Hwf|].
  destruct (exceptions_of_row_generator _ _ _ _ _ _ _ _ Hwf H) as [?|[?|(e & ? & _)]];
    [discriminate|exact H|discriminate].
Defined.

Lemma row_generator_fn_loaded reg icon_default ty fn r rc kw :
  row_generator_fn reg icon_default ty fn r rc kw
  = match load_evaluation_parameters rc kw with
    | Ok rc' => row_generator_fn reg icon_default ty fn r rc' ∅
    | Raise x => (Raise x, [])
    end.
Proof.
  destruct (load_evaluation_parameters rc kw) as [rc'|x] eqn:Hload.
  - unfold row_generator_fn, mbind, logged_bind, quiet. rewrite Hload.
    assert (load_evaluation_parameters rc' ∅ = Ok rc') as -> by done.
    done.
  - by apply row_generator_fn_load_raises.
Qed.

(** X14: of its keyword arguments the row generator only reads
    [evaluation_parameters].  A value other than None is stored in the runtime
    configuration, under the key "evaluation_parameters" and in place of what
    the key held, before the prescriptive renderer is called; without the
    keyword, or with None, the runtime configuration is passed as it is; and
    with a value but no runtime configuration the row generator raises
    [TypeError] before it calls a renderer or logs a record. *)
Theorem evaluation_parameters_loaded
    (reg : Registry) (icon_default : ExpectationValidationResult → call value)
    (ty : string)
    (fn : ExpectationConfiguration → option (gmap string value) → call (list value))
    (r : ExpectationValidationResult) (kw : gmap string value) :
  (∀ v rc, kw !! "evaluation_parameters" = Some v → v ≠ VNone →
           row_generator_fn reg icon_default ty fn r (Some rc) kw
           = row_generator_fn reg icon_default ty fn r
               (Some (<[ "evaluation_parameters" := v ]> rc)) ∅)
  ∧ (∀ rc, kw !! "evaluation_parameters" = None
           ∨ kw !! "evaluation_parameters" = Some VNone →
           row_generator_fn reg icon_default ty fn r rc kw
           = row_generator_fn reg icon_default ty fn r rc ∅)
  ∧ (∀ v, kw !! "evaluation_parameters" = Some v → v ≠ VNone →
          row_generator_fn reg icon_default ty fn r None kw = (Raise TypeError, [])).
Proof.
  split_and!.
  - intros v rc Hv Hne. rewrite row_generator_fn_loaded.
    unfold load_evaluation_parameters. rewrite Hv. by destruct v.
  - intros rc [Hv|Hv]; rewrite row_generator_fn_loaded;
      unfold load_evaluation_parameters; by rewrite Hv.
  - intros v Hv Hne. rewrite row_generator_fn_loaded.
    unfold load_evaluation_parameters. rewrite Hv. by destruct v.
Qed.

Lemma evaluation_parameters_loaded_witness :
  let kw : gmap string value :=
    <[ "evaluation_parameters" := VDict {[ "upper" := VInt 9 ]} ]>
      {[ "language" := VStr "en" ]} in
  kw !! "evaluation_parameters" = Some (VDict {[ "upper" := VInt 9 ]})
  ∧ row_generator_fn Sample.no_renderer Sample.status_icon_renderer "T1"
      Sample.missing_content_block_fn Sample.plain None kw = (Raise TypeError, []).
Proof.
  intros kw.
  assert (kw !! "evaluation_parameters" = Some (VDict {[ "upper" := VInt 9 ]})) as H
    by (vm_compute; reflexivity).
  split; [exact H|].
  apply (proj2 (proj2 (evaluation_parameters_loaded Sample.no_renderer
                         Sample.status_icon_renderer "T1"
                         Sample.missing_content_block_fn Sample.plain kw))
           _ H).
  discriminate.
Defined.

Lemma try_logging_log {A} (previous : A) (body : call A) :
  (try_logging previous body).2
  = match body with
    | Returns _ => []
    | Raises e => [mkLogRecord ERROR (exception_message e)]
    end.
Proof. by destruct body. Qed.

(** X15: the records that the row generator logs are at most three, all of
    level ERROR, each for an exception raised by the unexpected_statement, the
    unexpected_table or the observed_value renderer, in this order; nothing is
    logged when these three return, nor when an exception of the prescriptive
    or of the status icon renderer leaves the row generator. *)
Theorem log_of_row_generator
    (reg : Registry) (icon_default : ExpectationValidationResult → call value)
    (ty : string)
    (fn : ExpectationConfiguration → option (gmap string value) → call (list value))
    (r : ExpectationValidationResult)
    (rc : option (gmap string value)) (kw : gmap string value) :
  let log := (row_generator_fn reg icon_default ty fn r rc kw).2 in
  length log ≤ 3
  ∧ Forall (λ record,
              levelname record = ERROR
              ∧ ∃ e, message record = exception_message e
                     ∧ (unexpected_statement_call reg ty r = Raises e
                        ∨ unexpected_table_call reg ty r = Raises e
                        ∨ observed_value_call reg ty r = Raises e)) log
  ∧ ((∀ e, unexpected_statement_call reg ty r ≠ Raises e) →
     (∀ e, unexpected_table_call reg ty r ≠ Raises e) →
     (∀ e, observed_value_call reg ty r ≠ Raises e) →
     log = [])
  ∧ (∀ e, (row_generator_fn reg icon_default ty fn r rc kw).1 = Raise (Uncaught e) →
          log = []).
Proof.
  intros log. subst log.
  destruct (load_evaluation_parameters rc kw) as [rc'|x] eqn:Hload.
  2: { rewrite (row_generator_fn_load_raises _ _ _ _ _ _ _ _ Hload). simpl.
       split_and!; [lia|constructor|done..]. }
  destruct (fn (expectation_config r) rc') as [cell|e] eqn:Hfn.
  2: { rewrite (row_generator_fn_prescriptive_raises _ _ _ _ _ _ _ _ _ Hload Hfn). simpl.
       split_and!; [lia|constructor|done..]. }
  destruct (status_icon_call reg icon_default ty r) as [icon|e] eqn:Hicon.
  2: { rewrite (row_generator_fn_status_raises _ _ _ _ _ _ _ _ _ _ Hload Hfn Hicon). simpl.
       split_and!; [lia|constructor|done..]. }
  rewrite (row_generator_fn_assembles _ _ _ _ _ _ _ _ _ _ Hload Hfn Hicon).
  cbv zeta. unfold fst, snd at 1 5. rewrite !try_logging_log.
  split_and!.
  - destruct (unexpected_statement_call reg ty r), (unexpected_table_call reg ty r),
      (observed_value_call reg ty r); simpl; lia.
  - destruct (unexpected_statement_call reg ty r) as [us|e1] eqn:H1,
      (unexpected_table_call reg ty r) as [ut|e2] eqn:H2,
      (observed_value_call reg ty r) as [ov|e3] eqn:H3; simpl;
      repeat (constructor; [split; [done|]; eexists; split; [done|]; tauto|]);
      constructor.
  - intros H1 H2 H3.
    destruct (unexpected_statement_call reg ty r) as [us|e1]; [|by destruct (H1 e1)].
    destruct (unexpected_table_call reg ty r) as [ut|e2]; [|by destruct (H2 e2)].
    destruct (observed_value_call reg ty r) as [ov|e3]; [|by destruct (H3 e3)].
    done.
  - intros e He. exfalso.
    destruct (custom_property_values (expectation_config r)) as [customs|x] eqn:Hc;
      simpl in He; [done|].
    injection He as ->. by eapply custom_property_values_Raise.
Qed.

Lemma log_of_row_generator_witness :
  (row_generator_fn Fixture.failing_diagnostics Sample.status_icon_renderer "T1"
     (expectation_string_fn Fixture.failing_diagnostics Sample.missing_content_block_fn
        "T1") Sample.plain None ∅).2
  = [mkLogRecord ERROR (exception_message Sample.boom);
     mkLogRecord ERROR (exception_message Sample.boom);
     mkLogRecord ERROR (exception_message Sample.boom)]
  ∧ length (row_generator_fn Fixture.failing_diagnostics Sample.status_icon_renderer "T1"
              (expectation_string_fn Fixture.failing_diagnostics
                 Sample.missing_content_block_fn "T1") Sample.plain None ∅).2 ≤ 3.
Proof.
  split; [reflexivity|].
  exact (proj1 (log_of_row_generator Fixture.failing_diagnostics
                  Sample.status_icon_renderer "T1"
                  (expectation_string_fn Fixture.failing_diagnostics
                     Sample.missing_content_block_fn "T1") Sample.plain None ∅)).
Defined.
